(** * restful: trace-context resolution and the Lambda handler adapter

    A shallow embedding of two files of the [restful] library:

    - [trace/tracer] ([Tracer], [NewFromRequest], [NewFromRequestWithContext],
      [NewFromRequestOrRandom], [NewRandom] and the delegating methods), in
      [Module Tracer];
    - [mux_lambda_wrapper.go] ([LambdaWrap], [lambdaGetParams] and the
      [lambdaHandleRes*] family), in [Module Lambda].

    Go pointers to data that is never written after its creation are
    [option]s ([None] is [nil]); a Go panic is the [Panic] result. *)

From Stdlib Require Import ZArith Ascii String List.
From stdpp Require Import gmap strings list fin_maps.

Local Open Scope string_scope.
Local Open Scope Z_scope.

Set Warnings "-register-all".

(** ** Results of code that may panic *)

Inductive Res (A : Type) : Type :=
| Ok (a : A)
| Panic (msg : string).
Arguments Ok {A} a.
Arguments Panic {A} msg.

Definition res_bind {A B} (m : Res A) (k : A -> Res B) : Res B :=
  match m with
  | Ok a => k a
  | Panic msg => Panic msg
  end.

#[export] Instance Res_ret : MRet Res := @Ok.
#[export] Instance Res_bind : MBind Res := fun A B k m => res_bind m k.

Definition nil_dereference : string :=
  "runtime error: invalid memory address or nil pointer dereference".

(** ** Text helpers: [strings.Split(s, "-")] and [strings.Join(l, "-")] *)

Definition dash : ascii := "-"%char.

Fixpoint split_dash (s : string) : list string :=
  match s with
  | EmptyString => [EmptyString]
  | String c rest =>
      if Ascii.eqb c dash then EmptyString :: split_dash rest
      else match split_dash rest with
           | [] => [String c EmptyString]
           | x :: xs => String c x :: xs
           end
  end.

Fixpoint join_dash (l : list string) : string :=
  match l with
  | [] => EmptyString
  | [x] => x
  | x :: rest => x +:+ String dash (join_dash rest)
  end.

(** Lower-case hexadecimal digits, the alphabet of every identifier on the
    wire. *)
Definition is_hex_digit (c : ascii) : bool :=
  let n := nat_of_ascii c in
  ((48 <=? n)%nat && (n <=? 57)%nat) || ((97 <=? n)%nat && (n <=? 102)%nat).

Fixpoint hexb (s : string) : bool :=
  match s with
  | EmptyString => true
  | String c rest => is_hex_digit c && hexb rest
  end.

Definition nonempty (s : string) : bool :=
  match s with EmptyString => false | _ => true end.

(** A trace or span identifier: a non-empty hexadecimal string. *)
Definition idb (s : string) : bool := nonempty s && hexb s.

Definition hex_digit (n : N) : ascii :=
  nth (N.to_nat (n mod 16))
      (list_ascii_of_string "0123456789abcdef") "0"%char.

(** [len] hexadecimal digits of [n], least significant first. *)
Fixpoint hex_render (len : nat) (n : N) : string :=
  match len with
  | O => EmptyString
  | S k => String (hex_digit n) (hex_render k (n / 16))
  end.

(** ** [http.Header]

    A map from canonical header names to value lists; [Get] reads the first
    value ([""] when absent) and [Set] replaces the list. The names below
    are the canonical forms [net/http] gives the keys. *)

Abbreviation Header := (gmap string (list string)).

Definition Header_Get (k : string) (h : Header) : string :=
  match h !! k with
  | Some (v :: _) => v
  | _ => EmptyString
  end.

Definition Header_Set (k v : string) (h : Header) : Header := <[k := [v]]> h.


(** ** [http.Request]

    The parts of a request the two files read: the headers, the body, and
    the [*lambda.Lambda] its context carries (an address in the store of
    [Module Lambda]; [None] when the context carries none). *)

Record Request := mkRequest {
  req_Header : Header;
  req_Body : string;
  req_Lambda : option nat
}.

Definition with_Header (r : Request) (h : Header) : Request :=
  {| req_Header := h; req_Body := req_Body r; req_Lambda := req_Lambda r |}.

(** ** Randomness

    The random source is a tape of numbers drawn in advance; an identifier
    of [len] hexadecimal digits consumes one of them. *)

Abbreviation Tape := (list N).

Definition draw (len : nat) (tape : Tape) : string * Tape :=
  match tape with
  | [] => (hex_render len 0, [])
  | n :: rest => (hex_render len n, rest)
  end.

(** * The tracer ([trace/tracer]) *)

Module Tracer.

(** ** The [tracedata.TraceData] interface

    A method with a pointer receiver may write through it, so [Span], the
    one method that takes the request as well, returns the state of the
    receiver and of the request it was given after the call, besides its
    two results. *)

Record SpanResult (D : Type) := mkSpanResult {
  sr_self : D;          (* the receiver after the call *)
  sr_orig : Request;    (* the request passed in, after the call *)
  sr_req : Request;     (* the returned request *)
  sr_log : string;      (* the returned log string *)
  sr_tape : Tape
}.
Arguments mkSpanResult {D}.
Arguments sr_self {D}.
Arguments sr_orig {D}.
Arguments sr_req {D}.
Arguments sr_log {D}.
Arguments sr_tape {D}.

Class TraceData (D : Type) := {
  td_Span : D -> Request -> Tape -> SpanResult D;
  td_SetHeader : D -> Header -> Header;
  td_IsReceived : D -> bool;
  td_String : D -> string;
  td_TraceID : D -> string;
  td_SpanID : D -> string
}.

(** The packages [tracer] imports from this repository: [traceb3],
    [traceparent] and [traceotel], each with its data type, which implements
    [TraceData] through a pointer, and its constructors. Their sources are
    not part of the files embedded here, so the tracer is written over any
    implementation of them. [traceb3.NewFromRequest] and
    [traceparent.NewFromRequest] return pointers: [NewFromRequest] calls
    [reflect.ValueOf(..).IsNil()] on their results at once. *)

Class Packages := {
  TraceB3 : Type;
  TraceParent : Type;
  TraceOTel : Type;
  Context : Type;
  TraceB3_TraceData :: TraceData TraceB3;
  TraceParent_TraceData :: TraceData TraceParent;
  TraceOTel_TraceData :: TraceData TraceOTel;
  traceb3_NewFromRequest : Request -> option TraceB3;
  traceb3_NewRandom : Tape -> TraceB3 * Tape;
  traceparent_NewFromRequest : Request -> option TraceParent;
  traceotel_NewFromRequest : Request -> option TraceOTel;
  traceotel_NewFromRequestWithContext : Context -> Request -> option TraceOTel;
  traceotel_NewRandom : Tape -> TraceOTel * Tape
}.

#[global] Existing Instances TraceB3_TraceData TraceParent_TraceData TraceOTel_TraceData.

Section Resolver.
Context {P : Packages}.

(** A value of interface type [tracedata.TraceData]: the nil interface, or a
    dynamic type with a pointer, which may itself be nil. *)
Inductive TraceDataValue :=
| NilInterface
| OfTraceB3 (p : option TraceB3)
| OfTraceParent (p : option TraceParent)
| OfTraceOTel (p : option TraceOTel).

Record Tracer := mkTracer {
  traceData : TraceDataValue;
  received : bool
}.

Definition is_none {A} (p : option A) : bool :=
  match p with None => true | Some _ => false end.

(** [traceData == nil] *)
Definition is_nil_interface (d : TraceDataValue) : bool :=
  match d with NilInterface => true | _ => false end.

(** [reflect.ValueOf(traceData).IsNil()]: [ValueOf] of the nil interface is
    the zero [Value], on which [IsNil] panics. *)
Definition reflect_IsNil (d : TraceDataValue) : Res bool :=
  match d with
  | NilInterface => Panic "reflect: call of reflect.Value.IsNil on zero Value"
  | OfTraceB3 p => Ok (is_none p)
  | OfTraceParent p => Ok (is_none p)
  | OfTraceOTel p => Ok (is_none p)
  end.

Definition NewFromRequest (OtelEnabled : bool) (r : Request) : Res (option Tracer) :=
  traceData ←
    (if OtelEnabled then Ok (OfTraceOTel (traceotel_NewFromRequest r))
     else
       let traceData := OfTraceB3 (traceb3_NewFromRequest r) in
       isnil ← reflect_IsNil traceData;
       if isnil : bool then Ok (OfTraceParent (traceparent_NewFromRequest r))
       else Ok traceData);
  absent ← (if is_nil_interface traceData then Ok true else reflect_IsNil traceData);
  if absent : bool then Ok None
  else Ok (Some {| traceData := traceData; received := true |}).

Definition NewFromRequestWithContext (OtelEnabled : bool) (parentCtx : Context)
    (r : Request) : Res (option Tracer) :=
  traceData ←
    (if OtelEnabled
     then Ok (OfTraceOTel (traceotel_NewFromRequestWithContext parentCtx r))
     else
       let traceData := OfTraceB3 (traceb3_NewFromRequest r) in
       isnil ← reflect_IsNil traceData;
       if isnil : bool then Ok (OfTraceParent (traceparent_NewFromRequest r))
       else Ok traceData);
  absent ← (if is_nil_interface traceData then Ok true else reflect_IsNil traceData);
  if absent : bool then Ok None
  else Ok (Some {| traceData := traceData; received := true |}).

Definition NewRandom (OtelEnabled : bool) (tape : Tape) : Tracer * Tape :=
  if OtelEnabled then
    let '(d, tape') := traceotel_NewRandom tape in
    ({| traceData := OfTraceOTel (Some d); received := false |}, tape')
  else
    let '(d, tape') := traceb3_NewRandom tape in
    ({| traceData := OfTraceB3 (Some d); received := false |}, tape').

(** The result is a [*Tracer]: [None] would be the nil pointer. *)
Definition NewFromRequestOrRandom (OtelEnabled : bool) (r : Request) (tape : Tape)
    : Res (option Tracer * Tape) :=
  t ← NewFromRequest OtelEnabled r;
  match t with
  | Some t => Ok (Some t, tape)
  | None => let '(t, tape') := NewRandom OtelEnabled tape in Ok (Some t, tape')
  end.

(** A method call through the interface: the nil interface and a nil
    receiver both end in a nil dereference. *)
Definition dispatch {A} (d : TraceDataValue)
    (b3 : TraceB3 -> A) (tp : TraceParent -> A) (ot : TraceOTel -> A) : Res A :=
  match d with
  | OfTraceB3 (Some x) => Ok (b3 x)
  | OfTraceParent (Some x) => Ok (tp x)
  | OfTraceOTel (Some x) => Ok (ot x)
  | _ => Panic nil_dereference
  end.

(** What [Span] leaves behind and returns: the tracer and the request it was
    given, as they are after the call, the returned request and the log
    string. *)
Record SpanOut := mkSpanOut {
  so_self : Tracer;
  so_orig : Request;
  so_req : Request;
  so_log : string;
  so_tape : Tape
}.

Definition span_out {D} (rcv : bool) (wrap : option D -> TraceDataValue)
    (s : SpanResult D) : SpanOut :=
  {| so_self := {| traceData := wrap (Some (sr_self s)); received := rcv |};
     so_orig := sr_orig s; so_req := sr_req s; so_log := sr_log s;
     so_tape := sr_tape s |}.

Definition Span (t : Tracer) (r : Request) (tape : Tape) : Res SpanOut :=
  dispatch (traceData t)
    (fun d => span_out (received t) OfTraceB3 (td_Span d r tape))
    (fun d => span_out (received t) OfTraceParent (td_Span d r tape))
    (fun d => span_out (received t) OfTraceOTel (td_Span d r tape)).

(** [n] calls of [Span] in a row with the same tracer and the same request:
    the tracer and that request as they are after the last call. *)
Fixpoint Span_times (n : nat) (t : Tracer) (r : Request) (tape : Tape)
    : Res (Tracer * Request * Tape) :=
  match n with
  | O => Ok (t, r, tape)
  | S k =>
      o ← Span t r tape;
      Span_times k (so_self o) (so_orig o) (so_tape o)
  end.

Definition SetHeader (t : Tracer) (headers : Header) : Res Header :=
  dispatch (traceData t)
    (fun d => td_SetHeader d headers) (fun d => td_SetHeader d headers)
    (fun d => td_SetHeader d headers).

Definition IsReceived (t : Tracer) : Res bool :=
  dispatch (traceData t) td_IsReceived td_IsReceived td_IsReceived.

Definition String_ (t : Tracer) : Res string :=
  dispatch (traceData t) td_String td_String td_String.

Definition TraceID (t : Tracer) : Res string :=
  dispatch (traceData t) td_TraceID td_TraceID td_TraceID.

Definition SpanID (t : Tracer) : Res string :=
  dispatch (traceData t) td_SpanID td_SpanID td_SpanID.

(** Whether a request carries a trace header that the resolver recognizes,
    under a setting of [OtelEnabled]: whether the parsers consulted under
    that setting find a context. *)
Definition recognized (OtelEnabled : bool) (r : Request) : bool :=
  if OtelEnabled then negb (is_none (traceotel_NewFromRequest r))
  else negb (is_none (traceb3_NewFromRequest r))
       || negb (is_none (traceparent_NewFromRequest r)).

End Resolver.
End Tracer.

(** * The three encodings, from the specification

    [traceparent], [traceb3] and [traceotel] are packages of this repository
    whose sources are not among the embedded files. What follows models them
    from the specification's description of the wire formats and of the
    operations of a trace context. *)

(** Modelled from the spec: package [traceparent], the W3C encoding, "a
    single header carrying version-traceid-spanid-flags"; a malformed
    header is treated as an absent one. *)
Module traceparent.

(** Modelled from the spec: the context of package [traceparent] (absent
    from the embedded files): the four fields of the header and the
    "received from caller" flag. *)
Record TraceParent := mk {
  version : string;
  traceID : string;
  spanID : string;
  flags : string;
  received : bool
}.

Definition header : string := "Traceparent".

Definition value (d : TraceParent) : string :=
  join_dash [version d; traceID d; spanID d; flags d].

(** Modelled from the spec: [traceparent.NewFromRequest] (absent from the
    embedded files): the header split at the dashes; "malformed headers of
    a recognized format are treated the same as absence". *)
Definition NewFromRequest (r : Request) : option TraceParent :=
  match split_dash (Header_Get header (req_Header r)) with
  | [v; t; s; f] =>
      if hexb v && idb t && idb s && hexb f
      then Some {| version := v; traceID := t; spanID := s; flags := f;
                   received := true |}
      else None
  | _ => None
  end.

(** Modelled from the spec: [SetHeader] of a [traceparent] context (absent
    from the embedded files), which "writes the context's wire encoding into
    an existing header collection". *)
Definition SetHeader (d : TraceParent) (h : Header) : Header :=
  Header_Set header (value d) h.

(** The fields of a context that was parsed or drawn: hexadecimal text, the
    identifiers not empty. *)
Definition wf (d : TraceParent) : bool :=
  hexb (version d) && idb (traceID d) && idb (spanID d) && hexb (flags d).

(** The child span: same trace, a new span identifier. *)
Definition child (d : TraceParent) (sid : string) : TraceParent :=
  {| version := version d; traceID := traceID d; spanID := sid;
     flags := flags d; received := received d |}.

(** Modelled from the spec: [Span] of a [traceparent] context (absent from
    the embedded files), which "derives a child span from the context,
    attaches it to a copy of the request (original request object is not
    mutated), and returns a human-readable log string containing trace id
    and span id". *)
Definition Span (d : TraceParent) (r : Request) (tape : Tape)
    : Tracer.SpanResult TraceParent :=
  let '(sid, tape') := draw 16 tape in
  let c := child d sid in
  Tracer.mkSpanResult d r (with_Header r (SetHeader c (req_Header r)))
    (value c) tape'.

#[export] Instance TraceParent_TraceData : Tracer.TraceData TraceParent := {|
  Tracer.td_Span := Span;
  Tracer.td_SetHeader := SetHeader;
  Tracer.td_IsReceived := received;
  Tracer.td_String := value;
  Tracer.td_TraceID := traceID;
  Tracer.td_SpanID := spanID
|}.

End traceparent.

(** Modelled from the spec: package [traceb3], the B3 encoding, "either one
    combined header or a multi-header set (trace id, span id, sampled flag,
    parent span id)"; a context keeps the form it was created with. *)
Module traceb3.

(** Modelled from the spec: the context of package [traceb3] (absent from
    the embedded files): the form it was created with, the four fields and
    the "received from caller" flag. *)
Record TraceB3 := mk {
  single : bool;
  traceID : string;
  spanID : string;
  sampled : string;           (* empty when not given *)
  parentSpanID : string;      (* empty when not given *)
  received : bool
}.

Definition header : string := "B3".
Definition headerTraceID : string := "X-B3-Traceid".
Definition headerSpanID : string := "X-B3-Spanid".
Definition headerSampled : string := "X-B3-Sampled".
Definition headerParentSpanID : string := "X-B3-Parentspanid".

(** The combined form: the trailing fields are written when given. *)
Definition value (d : TraceB3) : string :=
  join_dash
    ([traceID d; spanID d] ++
     (if nonempty (sampled d)
      then sampled d :: (if nonempty (parentSpanID d) then [parentSpanID d] else [])
      else [])).

Definition checked (sgl : bool) (t s sa p : string) : option TraceB3 :=
  if idb t && idb s && hexb sa && hexb p
  then Some {| single := sgl; traceID := t; spanID := s; sampled := sa;
               parentSpanID := p; received := true |}
  else None.

(** Modelled from the spec: [traceb3.NewFromRequest] (absent from the
    embedded files): the combined header when there is one, else the
    multi-header set; "malformed headers of a recognized format are treated
    the same as absence". *)
Definition NewFromRequest (r : Request) : option TraceB3 :=
  let h := req_Header r in
  if nonempty (Header_Get header h) then
    match split_dash (Header_Get header h) with
    | [t; s] => checked true t s "" ""
    | [t; s; sa] => checked true t s sa ""
    | [t; s; sa; p] => checked true t s sa p
    | _ => None
    end
  else if nonempty (Header_Get headerTraceID h) then
    checked false (Header_Get headerTraceID h) (Header_Get headerSpanID h)
      (Header_Get headerSampled h) (Header_Get headerParentSpanID h)
  else None.

(** Modelled from the spec: [traceb3.NewRandom] (absent from the embedded
    files): "new trace id, new span id, marked not received". *)
Definition NewRandom (tape : Tape) : TraceB3 * Tape :=
  let '(t, tape1) := draw 32 tape in
  let '(s, tape2) := draw 16 tape1 in
  ({| single := true; traceID := t; spanID := s; sampled := "";
      parentSpanID := ""; received := false |}, tape2).

(** Modelled from the spec: [SetHeader] of a [traceb3] context (absent from
    the embedded files), "using the encoding matching the context's own
    format". *)
Definition SetHeader (d : TraceB3) (h : Header) : Header :=
  if single d then Header_Set header (value d) h
  else
    let h1 := Header_Set headerTraceID (traceID d) h in
    let h2 := Header_Set headerSpanID (spanID d) h1 in
    let h3 := if nonempty (sampled d) then Header_Set headerSampled (sampled d) h2 else h2 in
    if nonempty (parentSpanID d) then Header_Set headerParentSpanID (parentSpanID d) h3
    else h3.

Definition wf (d : TraceB3) : bool :=
  idb (traceID d) && idb (spanID d) && hexb (sampled d) && hexb (parentSpanID d).

(** The child span: same trace, a new span identifier, the old one as its
    parent. *)
Definition child (d : TraceB3) (sid : string) : TraceB3 :=
  {| single := single d; traceID := traceID d; spanID := sid;
     sampled := sampled d; parentSpanID := spanID d; received := received d |}.

(** Modelled from the spec: [Span] of a [traceb3] context (absent from the
    embedded files); see [traceparent.Span]. *)
Definition Span (d : TraceB3) (r : Request) (tape : Tape)
    : Tracer.SpanResult TraceB3 :=
  let '(sid, tape') := draw 16 tape in
  let c := child d sid in
  Tracer.mkSpanResult d r (with_Header r (SetHeader c (req_Header r)))
    (value c) tape'.

#[export] Instance TraceB3_TraceData : Tracer.TraceData TraceB3 := {|
  Tracer.td_Span := Span;
  Tracer.td_SetHeader := SetHeader;
  Tracer.td_IsReceived := received;
  Tracer.td_String := value;
  Tracer.td_TraceID := traceID;
  Tracer.td_SpanID := spanID
|}.

End traceb3.

(** Modelled from the spec: package [traceotel], the SDK-native encoding,
    "whatever the linked tracing SDK's own propagator emits (composite of
    the above)". [SetOTel] installs the composite of the W3C propagator and
    the B3 propagator in its single-header and multi-header forms: injection
    writes all three, extraction lets a valid B3 context override the W3C
    one. *)
Module traceotel.

(** Modelled from the spec: the span context of the SDK, as far as the
    tracer reads it: "trace identifier, span identifier" and the sampling
    flag that both wire formats carry. *)
Record SpanContext := mkSpanContext {
  sc_traceID : string;
  sc_spanID : string;
  sc_sampled : bool
}.

(** Modelled from the spec: the context of package [traceotel] (absent
    from the embedded files): an SDK span context and the "received from
    caller" flag. *)
Record TraceOTel := mk {
  sc : SpanContext;
  received : bool
}.

(** The parent [context.Context], as far as tracing reads it: the span
    context it carries, if any. *)
Abbreviation Context := (option SpanContext).

Definition as_traceparent (c : SpanContext) : traceparent.TraceParent :=
  {| traceparent.version := "00"; traceparent.traceID := sc_traceID c;
     traceparent.spanID := sc_spanID c;
     traceparent.flags := if sc_sampled c then "01" else "00";
     traceparent.received := false |}.

Definition as_b3 (sgl : bool) (c : SpanContext) : traceb3.TraceB3 :=
  {| traceb3.single := sgl; traceb3.traceID := sc_traceID c;
     traceb3.spanID := sc_spanID c;
     traceb3.sampled := if sc_sampled c then "1" else "0";
     traceb3.parentSpanID := ""; traceb3.received := false |}.

Definition of_traceparent (d : traceparent.TraceParent) : SpanContext :=
  {| sc_traceID := traceparent.traceID d; sc_spanID := traceparent.spanID d;
     sc_sampled := String.eqb (traceparent.flags d) "01" |}.

Definition of_b3 (d : traceb3.TraceB3) : SpanContext :=
  {| sc_traceID := traceb3.traceID d; sc_spanID := traceb3.spanID d;
     sc_sampled := String.eqb (traceb3.sampled d) "1" |}.

(** Modelled from the spec: injection by the SDK's propagator, the
    "composite of the above": the W3C header, the combined B3 header and the
    B3 multi-header set. *)
Definition Inject (c : SpanContext) (h : Header) : Header :=
  traceb3.SetHeader (as_b3 false c)
    (traceb3.SetHeader (as_b3 true c)
       (traceparent.SetHeader (as_traceparent c) h)).

(** Modelled from the spec: extraction by the SDK's propagator, "format:
    W3C + B3, decided by a composite propagator"; without a header of
    either format the context is the one extraction started from. *)
Definition Extract (parent : Context) (r : Request) : Context :=
  match traceb3.NewFromRequest r with
  | Some d => Some (of_b3 d)
  | None =>
      match traceparent.NewFromRequest r with
      | Some d => Some (of_traceparent d)
      | None => parent
      end
  end.

(** Modelled from the spec: [traceotel.NewFromRequestWithContext] (absent
    from the embedded files): the SDK's extraction, started from the parent
    context. *)
Definition NewFromRequestWithContext (parentCtx : Context) (r : Request)
    : option TraceOTel :=
  match Extract parentCtx r with
  | Some c => Some {| sc := c; received := true |}
  | None => None
  end.

(** Modelled from the spec: [traceotel.NewFromRequest] (absent from the
    embedded files), which "delegates entirely to that SDK's own context
    extraction"; "absence of a valid upstream context yields absent". *)
Definition NewFromRequest (r : Request) : option TraceOTel :=
  NewFromRequestWithContext None r.

(** Modelled from the spec: [traceotel.NewRandom] (absent from the embedded
    files): "new trace id, new span id, marked not received". *)
Definition NewRandom (tape : Tape) : TraceOTel * Tape :=
  let '(t, tape1) := draw 32 tape in
  let '(s, tape2) := draw 16 tape1 in
  ({| sc := {| sc_traceID := t; sc_spanID := s; sc_sampled := true |};
      received := false |}, tape2).

(** Modelled from the spec: [SetHeader] of a [traceotel] context (absent
    from the embedded files): "whatever the linked tracing SDK's own
    propagator emits". *)
Definition SetHeader (d : TraceOTel) (h : Header) : Header := Inject (sc d) h.

Definition traceID (d : TraceOTel) : string := sc_traceID (sc d).
Definition spanID (d : TraceOTel) : string := sc_spanID (sc d).
Definition value (d : TraceOTel) : string :=
  traceparent.value (as_traceparent (sc d)).

Definition wf (d : TraceOTel) : bool := idb (traceID d) && idb (spanID d).

Definition child (d : TraceOTel) (sid : string) : TraceOTel :=
  {| sc := {| sc_traceID := traceID d; sc_spanID := sid;
              sc_sampled := sc_sampled (sc d) |};
     received := received d |}.

(** Modelled from the spec: [Span] of a [traceotel] context (absent from
    the embedded files); see [traceparent.Span]. *)
Definition Span (d : TraceOTel) (r : Request) (tape : Tape)
    : Tracer.SpanResult TraceOTel :=
  let '(sid, tape') := draw 16 tape in
  let c := child d sid in
  Tracer.mkSpanResult d r (with_Header r (SetHeader c (req_Header r)))
    (value c) tape'.

#[export] Instance TraceOTel_TraceData : Tracer.TraceData TraceOTel := {|
  Tracer.td_Span := Span;
  Tracer.td_SetHeader := SetHeader;
  Tracer.td_IsReceived := received;
  Tracer.td_String := value;
  Tracer.td_TraceID := traceID;
  Tracer.td_SpanID := spanID
|}.

End traceotel.

(** The tracer over the three packages as modelled above. *)
Definition spec_packages : Tracer.Packages := {|
  Tracer.TraceB3 := traceb3.TraceB3;
  Tracer.TraceParent := traceparent.TraceParent;
  Tracer.TraceOTel := traceotel.TraceOTel;
  Tracer.Context := traceotel.Context;
  Tracer.TraceB3_TraceData := traceb3.TraceB3_TraceData;
  Tracer.TraceParent_TraceData := traceparent.TraceParent_TraceData;
  Tracer.TraceOTel_TraceData := traceotel.TraceOTel_TraceData;
  Tracer.traceb3_NewFromRequest := traceb3.NewFromRequest;
  Tracer.traceb3_NewRandom := traceb3.NewRandom;
  Tracer.traceparent_NewFromRequest := traceparent.NewFromRequest;
  Tracer.traceotel_NewFromRequest := traceotel.NewFromRequest;
  Tracer.traceotel_NewFromRequestWithContext := traceotel.NewFromRequestWithContext;
  Tracer.traceotel_NewRandom := traceotel.NewRandom
|}.

Module SpecTracer.

Abbreviation Tracer := (@Tracer.Tracer spec_packages).

(** A tracer that holds a context, and a well-formed one. *)
Definition well_formed (t : Tracer) : bool :=
  match Tracer.traceData t with
  | Tracer.OfTraceB3 (Some d) => traceb3.wf d
  | Tracer.OfTraceParent (Some d) => traceparent.wf d
  | Tracer.OfTraceOTel (Some d) => traceotel.wf d
  | _ => false
  end.

(** The setting of [OtelEnabled] under which the tracer's encoding is the
    one in use: the SDK's contexts with the SDK enabled, B3 and W3C contexts
    with the SDK disabled. *)
Definition encoding_flag (t : Tracer) : bool :=
  match Tracer.traceData t with
  | Tracer.OfTraceOTel _ => true
  | _ => false
  end.

(** The tracer of the child span that [Span] derives, given the new span
    identifier. *)
Definition child (t : Tracer) (sid : string) : Tracer :=
  let mk := @Tracer.mkTracer spec_packages in
  match Tracer.traceData t with
  | Tracer.OfTraceB3 (Some d) =>
      mk (@Tracer.OfTraceB3 spec_packages (Some (traceb3.child d sid)))
        (Tracer.received t)
  | Tracer.OfTraceParent (Some d) =>
      mk (@Tracer.OfTraceParent spec_packages (Some (traceparent.child d sid)))
        (Tracer.received t)
  | Tracer.OfTraceOTel (Some d) =>
      mk (@Tracer.OfTraceOTel spec_packages (Some (traceotel.child d sid)))
        (Tracer.received t)
  | _ => t
  end.

Definition trace_headers : list string :=
  [traceparent.header; traceb3.header; traceb3.headerTraceID;
   traceb3.headerSpanID; traceb3.headerSampled; traceb3.headerParentSpanID].

(** A header collection that carries no trace header. *)
Definition untraced (h : Header) : bool :=
  forallb (fun k => negb (nonempty (Header_Get k h))) trace_headers.

End SpecTracer.

(** * The handler adapter ([mux_lambda_wrapper.go]) *)

Module Lambda.

(** ** Go types and values, as [reflect] shows them *)

Inductive Kind := KBool | KInt | KString | KStruct | KPtr | KInterface | KFunc.

#[export] Instance Kind_eq_dec : EqDecision Kind.
Proof. solve_decision. Defined.

(** A named type carries its name, the methods declared with a value
    receiver and those declared with a pointer receiver, and its underlying
    type. *)
Inductive GoType :=
| TBool
| TInt
| TString
| TStruct (fields : list GoType)
| TPtr (elem : GoType)
| TInterface (methods : list string)
| TFunc (ins outs : list GoType)
| TNamed (name : string) (methods ptr_methods : list string) (underlying : GoType).

Definition list_eqb {A} (eqb : A -> A -> bool) : list A -> list A -> bool :=
  fix go (l1 l2 : list A) : bool :=
    match l1, l2 with
    | [], [] => true
    | x :: l1', y :: l2' => eqb x y && go l1' l2'
    | _, _ => false
    end.

(** Type identity. *)
Fixpoint type_eqb (a b : GoType) : bool :=
  match a, b with
  | TBool, TBool | TInt, TInt | TString, TString => true
  | TStruct fa, TStruct fb => list_eqb type_eqb fa fb
  | TPtr ea, TPtr eb => type_eqb ea eb
  | TInterface ma, TInterface mb => list_eqb String.eqb ma mb
  | TFunc ia oa, TFunc ib ob => list_eqb type_eqb ia ib && list_eqb type_eqb oa ob
  | TNamed na ma pa ua, TNamed nb mb pb ub =>
      String.eqb na nb && list_eqb String.eqb ma mb && list_eqb String.eqb pa pb
      && type_eqb ua ub
  | _, _ => false
  end.

(** [Type.Kind()] *)
Fixpoint kind (t : GoType) : Kind :=
  match t with
  | TBool => KBool
  | TInt => KInt
  | TString => KString
  | TStruct _ => KStruct
  | TPtr _ => KPtr
  | TInterface _ => KInterface
  | TFunc _ _ => KFunc
  | TNamed _ _ _ u => kind u
  end.

Fixpoint underlying (t : GoType) : GoType :=
  match t with
  | TNamed _ _ _ u => underlying u
  | _ => t
  end.

(** [Type.Elem()] of a pointer type. *)
Definition Elem (t : GoType) : Res GoType :=
  match underlying t with
  | TPtr e => Ok e
  | _ => Panic "reflect: Elem of invalid type"
  end.

(** The signature of a function type: what [NumIn], [In], [NumOut] read. *)
Definition signature (t : GoType) : option (list GoType * list GoType) :=
  match underlying t with
  | TFunc ins outs => Some (ins, outs)
  | _ => None
  end.

(** The method set of a type, by name. *)
Definition method_set (t : GoType) : list string :=
  match t with
  | TInterface ms => ms
  | TNamed _ ms _ u =>
      ms ++ match underlying u with TInterface ims => ims | _ => [] end
  | TPtr (TNamed _ ms pms u) =>
      match underlying u with
      | TInterface _ | TPtr _ => []
      | _ => ms ++ pms
      end
  | _ => []
  end.

Definition has_method (ms : list string) (m : string) : bool :=
  existsb (String.eqb m) ms.

(** [t.Implements(u)] for an interface type [u]. *)
Definition Implements (t u : GoType) : bool :=
  match underlying u with
  | TInterface want => forallb (has_method (method_set t)) want
  | _ => false
  end.

Definition contextType : GoType :=
  TNamed "context.Context" [] [] (TInterface ["Deadline"; "Done"; "Err"; "Value"]).

Definition errorType : GoType :=
  TNamed "error" [] [] (TInterface ["Error"]).

Definition ResponseWriterType : GoType :=
  TNamed "http.ResponseWriter" [] []
    (TInterface ["Header"; "Write"; "WriteHeader"]).

Definition RequestType : GoType := TNamed "http.Request" [] [] (TStruct []).

(** [func(w http.ResponseWriter, r *http.Request)] *)
Definition handlerFuncType : GoType :=
  TFunc [ResponseWriterType; TPtr RequestType] [].

(** [http.HandlerFunc] *)
Definition HandlerFuncType : GoType :=
  TNamed "http.HandlerFunc" ["ServeHTTP"] [] handlerFuncType.

(** [context.valueCtx], which embeds a [Context] and declares [String] and
    [Value] on the pointer; its fields are left out. *)
Definition valueCtxType : GoType :=
  TNamed "context.valueCtx" ["Deadline"; "Done"; "Err"] ["String"; "Value"]
    (TStruct []).

(** The concrete type behind the context that [NewRequestCtx] returns. *)
Definition requestCtxType : GoType := TPtr valueCtxType.

(** Whether a type has a name: a defined type or a predeclared one. *)
Definition has_name (t : GoType) : bool :=
  match t with
  | TNamed _ _ _ _ | TBool | TInt | TString => true
  | _ => false
  end.

(** [v.AssignableTo(t)]: the types are identical, or they have identical
    underlying types and one of them has no name, or [t] is an interface
    type that [v] implements. *)
Definition AssignableTo (v t : GoType) : bool :=
  type_eqb v t
  || (negb (has_name v && has_name t) && type_eqb (underlying v) (underlying t))
  || Implements v t.

(** [Kind.String()] *)
Definition Kind_String (k : Kind) : string :=
  match k with
  | KBool => "bool"
  | KInt => "int"
  | KString => "string"
  | KStruct => "struct"
  | KPtr => "ptr"
  | KInterface => "interface"
  | KFunc => "func"
  end.

(** [Type.String()]. The types of the embedding carry neither the names of
    the fields of a struct nor the signatures of the methods of an
    interface, so the text of a struct or interface type without a name
    lists the field types and the method names only. *)
Fixpoint type_string (t : GoType) : string :=
  match t with
  | TBool => "bool"
  | TInt => "int"
  | TString => "string"
  | TStruct [] => "struct {}"
  | TStruct fields =>
      "struct { " ++ String.concat "; " (map type_string fields) ++ " }"
  | TPtr elem => "*" ++ type_string elem
  | TInterface [] => "interface {}"
  | TInterface ms => "interface { " ++ String.concat "; " ms ++ " }"
  | TFunc ins outs =>
      "func(" ++ String.concat ", " (map type_string ins) ++ ")" ++
      match outs with
      | [] => ""
      | [out] => " " ++ type_string out
      | _ => " (" ++ String.concat ", " (map type_string outs) ++ ")"
      end
  | TNamed name _ _ _ => name
  end.

(** Values. Every value determines its type; a pointer holds an address of
    the store or is nil; a function value holds a code pointer or is nil; a
    value of interface type holds a dynamic value or is nil. *)
Inductive Value :=
| VBool (b : bool)
| VInt (n : Z)
| VString (s : string)
| VStruct (fields : list Value)
| VPtr (elem : GoType) (target : option nat)
| VInterface (methods : list string) (dyn : option Value)
| VFunc (ins outs : list GoType) (code : option nat)
| VNamed (name : string) (methods ptr_methods : list string) (v : Value)
| VContext (lambda : nat).

Fixpoint type_of (v : Value) : GoType :=
  match v with
  | VBool _ => TBool
  | VInt _ => TInt
  | VString _ => TString
  | VStruct fields => TStruct (map type_of fields)
  | VPtr elem _ => TPtr elem
  | VInterface ms _ => TInterface ms
  | VFunc ins outs _ => TFunc ins outs
  | VNamed n ms pms v => TNamed n ms pms (type_of v)
  | VContext _ => requestCtxType
  end.

(** The value without its type names. *)
Fixpoint bare (v : Value) : Value :=
  match v with
  | VNamed _ _ _ v => bare v
  | _ => v
  end.

(** The zero value of a type, what [reflect.New] allocates. *)
Fixpoint zero (t : GoType) : Value :=
  match t with
  | TBool => VBool false
  | TInt => VInt 0
  | TString => VString ""
  | TStruct fields => VStruct (map zero fields)
  | TPtr elem => VPtr elem None
  | TInterface ms => VInterface ms None
  | TFunc ins outs => VFunc ins outs None
  | TNamed n ms pms u => VNamed n ms pms (zero u)
  end.

(** [Value.Kind()] *)
Definition Kind_of (v : Value) : Kind := kind (type_of v).

(** A value of type [any]: [None] is the nil interface, [Some v] holds a
    value of a concrete type. *)
Abbreviation any := (option Value).

(** [Value.Interface()]: of a value of interface type, the value inside. *)
Definition Interface (v : Value) : any :=
  match bare v with
  | VInterface _ dyn => dyn
  | _ => Some v
  end.

(** ** Errors *)

(** A value of type [error]: a Go value whose type implements [error], or
    what [NewError(err, status)] builds. *)
Inductive GoError :=
| ErrorValue (v : Value)
| RestError (err : option GoError) (status : Z).

(** Modelled from the spec: [NewError] of this repository (absent from the
    embedded files), which pairs an optional error with an HTTP status. *)
Definition NewError (err : option GoError) (status : Z) : GoError :=
  RestError err status.

Definition StatusUnprocessableEntity : Z := 422.

(** [res.Interface().(error)] *)
Definition as_error (a : any) : option GoError :=
  match a with
  | Some v => if Implements (type_of v) errorType then Some (ErrorValue v) else None
  | None => None
  end.

(** ** The store *)

(** [lambda.Lambda], as far as the adapter reads it. *)
Record LambdaCtx := mkLambda { Status : Z }.

Record Store := mkStore {
  heap : gmap nat Value;
  lambdas : gmap nat LambdaCtx
}.

Inductive Event :=
| Called (code : nat) (args : list Value) (s : Store)
    (* the function was called on these arguments, from this store *)
| Sent (err : option GoError) (data : any).
    (* [SendResp(w, r, err, data)] *)

Record World := mkWorld {
  store : Store;
  events : list Event
}.

(** The globals of the file. *)
Record Globals := mkGlobals {
  LambdaMaxBytesToParse : Z;
  LambdaSanitizeJSON : bool;
  LambdaValidator : bool
}.

Definition defaults : Globals :=
  {| LambdaMaxBytesToParse := 0; LambdaSanitizeJSON := false; LambdaValidator := true |}.

(** What the adapter calls and this file does not define: the body decoder
    [GetRequestData] (given the request, the byte limit and the value behind
    the pointer, an error or the decoded value), [validate.Struct], and the
    behaviour of the function values of the program, by code pointer: the
    values returned, or a panic, and the store the function leaves. *)
Class Collaborators := {
  GetRequestData : Request -> Z -> Value -> GoError + Value;
  validate_Struct : Value -> option GoError;
  call : nat -> list Value -> Store -> Res (list Value) * Store
}.

(** ** Computations over the world

    A computation returns a result or panics, and leaves a world either
    way. *)

Definition M (A : Type) : Type := World -> Res A * World.

Definition ret {A} (a : A) : M A := fun w => (Ok a, w).

Definition panic {A} (msg : string) : M A := fun w => (Panic msg, w).

Definition bind {A B} (m : M A) (k : A -> M B) : M B :=
  fun w =>
    match m w with
    | (Ok a, w') => k a w'
    | (Panic msg, w') => (Panic msg, w')
    end.

#[export] Instance M_ret : MRet M := @ret.
#[export] Instance M_bind : MBind M := fun A B k m => bind m k.

Definition lift {A} (m : Res A) : M A := fun w => (m, w).

Definition get_store : M Store := fun w => (Ok (store w), w).

Definition put_store (s : Store) : M unit :=
  fun w => (Ok tt, {| store := s; events := events w |}).

Definition emit (e : Event) : M unit :=
  fun w => (Ok tt, {| store := store w; events := events w ++ [e] |}).

Section Adapter.
Context {C : Collaborators}.
Variable g : Globals.

(** Modelled from the spec: [L] of this repository (absent from the embedded
    files): the [*lambda.Lambda] that the request's context carries, nil
    when it carries none. The result is the state of the pointee. *)
Definition L (r : Request) (s : Store) : option LambdaCtx :=
  match req_Lambda r with
  | Some a => lambdas s !! a
  | None => None
  end.

(** Modelled from the spec: [NewRequestCtx] of this repository (absent from
    the embedded files), which "synthesizes a request-scoped context value"
    through which a status override is recorded: a new [Lambda], with no
    status recorded yet, behind a new context value. *)
Definition NewRequestCtx (r : Request) : M nat :=
  s ← get_store;
  let a := fresh (dom (lambdas s)) in
  _ ← put_store {| heap := heap s; lambdas := <[a := {| Status := 0 |}]> (lambdas s) |};
  ret a.

(** [r.WithContext(ctx)] for such a context. *)
Definition WithContext (r : Request) (a : nat) : Request :=
  {| req_Header := req_Header r; req_Body := req_Body r; req_Lambda := Some a |}.

Definition lambdaHandleRes0 (l : option LambdaCtx) : option GoError :=
  match l with
  | Some l' => if 0 <? Status l' then Some (NewError None (Status l')) else None
  | None => None
  end.

Definition lambdaHandleRes1 (l : option LambdaCtx) (res : Value) : any * option GoError :=
  match as_error (Interface res) with
  | Some err => (None, Some err)
  | None =>
      match l with
      | Some l' =>
          if 0 <? Status l' then (Interface res, Some (NewError None (Status l')))
          else (Interface res, None)
      | None => (Interface res, None)
      end
  end.

Definition lambdaGetStatus (l : option LambdaCtx) (res : Value) : option GoError :=
  match as_error (Interface res) with
  | Some err => Some err
  | None =>
      match l with
      | Some l' => if 0 <? Status l' then Some (NewError None (Status l')) else None
      | None => None
      end
  end.

Definition index_out_of_range : string := "runtime error: index out of range".

Definition load (s : Store) (a : nat) : Res Value :=
  match heap s !! a with
  | Some v => Ok v
  | None => Panic "load of an address that is not allocated"
  end.

(** Of a value of kind [Ptr]: [None] when [IsNil()], else what [Elem()]
    reads. *)
Definition pointee (v : Value) (s : Store) : Res (option Value) :=
  match bare v with
  | VPtr _ None => Ok None
  | VPtr _ (Some a) => res_bind (load s a) (fun x => Ok (Some x))
  | VContext _ => Ok (Some (zero valueCtxType))
  | _ => Panic "reflect: call of reflect.Value.IsNil on a value that is no pointer"
  end.

Definition lambdaHandleRes2 (l : option LambdaCtx) (res : list Value) (s : Store)
    : Res (any * option GoError) :=
  match res !! 1%nat, res !! 0%nat with
  | Some res1, Some res0 =>
      let err := lambdaGetStatus l res1 in
      if bool_decide (Kind_of res0 = KPtr) then
        res_bind (pointee res0 s) (fun target =>
          match target with
          | None => Ok (None, err)
          | Some v => Ok (Interface v, err)
          end)
      else Ok (Interface res0, err)
  | _, _ => Panic index_out_of_range
  end.

(** Modelled from the spec: [SendResp] of this repository (absent from the
    embedded files), the "one response-writing operation, given
    (error-or-nil, payload-or-nil)"; what it writes is left to it, the
    embedding records the call. *)
Definition SendResp (err : option GoError) (data : any) : M unit :=
  emit (Sent err data).

Definition lambdaHandleRes (r : Request) (res : list Value) : M unit :=
  s ← get_store;
  let l := L r s in
  '(data, err) ←
    match res with
    | [] => ret (None, lambdaHandleRes0 l)
    | [res0] => ret (lambdaHandleRes1 l res0)
    | _ => lift (lambdaHandleRes2 l res s)
    end;
  SendResp err data.

(** The index of the body parameter: 1 after a context parameter, else 0. *)
Definition reqDataIdx (ins : list GoType) : nat :=
  match ins with
  | in0 :: _ => if Implements in0 contextType then 1%nat else 0%nat
  | [] => 0%nat
  end.

(** The type of the value the body is decoded into: the parameter's type,
    less one pointer. *)
Definition body_type (reqDataType : GoType) : Res GoType :=
  if bool_decide (kind reqDataType = KPtr) then Elem reqDataType
  else Ok reqDataType.

(** [reflect.New(t)]: a new address that holds the zero value of [t]. *)
Definition reflect_New (t : GoType) : M nat :=
  s ← get_store;
  let a := fresh (dom (heap s)) in
  _ ← put_store {| heap := <[a := zero t]> (heap s); lambdas := lambdas s |};
  ret a.

Definition write (a : nat) (v : Value) : M unit :=
  s ← get_store;
  put_store {| heap := <[a := v]> (heap s); lambdas := lambdas s |}.

(** The outcome of [lambdaGetParams]: the arguments (a slot left unset holds
    the zero [reflect.Value], here [None]), the request, the error. *)
Record Params := mkParams {
  params : list (option Value);
  request : Request;
  err : option GoError
}.

(** The context parameter, when the function declares one: the arguments
    and the request after it is bound. *)
Definition bind_context (ins : list GoType) (r : Request)
    (params0 : list (option Value)) : M (list (option Value) * Request) :=
  match ins with
  | in0 :: _ =>
      if Implements in0 contextType then
        ctx ← NewRequestCtx r;
        ret (<[0%nat := Some (VContext ctx)]> params0, WithContext r ctx)
      else ret (params0, r)
  | [] => ret (params0, r)
  end.

Definition lambdaGetParams (r : Request) (f : Value) : M Params :=
  match signature (type_of f) with
  | None => panic ("reflect: NumIn of non-func type " ++ type_string (type_of f))
  | Some (ins, _) =>
      let params0 : list (option Value) := replicate (length ins) None in
      '(params1, r1) ← bind_context ins r params0;
      match ins !! reqDataIdx ins with
      | None => ret (mkParams params1 r1 None)
      | Some reqDataType =>
          elemType ← lift (body_type reqDataType);
          a ← reflect_New elemType;
          match GetRequestData r1 (LambdaMaxBytesToParse g) (zero elemType) with
          | inl e => ret (mkParams [] r1 (Some e))
          | inr v =>
              _ ← write a v;
              match
                (if LambdaValidator g && bool_decide (kind elemType = KStruct)
                 then validate_Struct v else None)
              with
              | Some e =>
                  ret (mkParams [] r1 (Some (NewError (Some e) StatusUnprocessableEntity)))
              | None =>
                  let reqData :=
                    if bool_decide (kind reqDataType = KPtr)
                    then VPtr elemType (Some a) else v in
                  ret (mkParams (<[reqDataIdx ins := Some reqData]> params1) r1 None)
              end
          end
      end
  end.

Definition call_of_nil : string := "reflect.Value.Call: call of nil function".

(** The code pointer of a function value. *)
Definition code_of (f : Value) : option nat :=
  match bare f with
  | VFunc _ _ code => code
  | _ => None
  end.

Fixpoint arguments (ps : list (option Value)) : option (list Value) :=
  match ps with
  | [] => Some []
  | Some v :: rest =>
      match arguments rest with
      | Some vs => Some (v :: vs)
      | None => None
      end
  | None :: _ => None
  end.

(** The first argument whose type is not assignable to the type of its
    parameter: the two types. *)
Fixpoint not_assignable (args : list Value) (ins : list GoType)
    : option (GoType * GoType) :=
  match args, ins with
  | v :: args', t :: ins' =>
      if AssignableTo (type_of v) t then not_assignable args' ins'
      else Some (type_of v, t)
  | _, _ => None
  end.

(** [reflect.ValueOf(f).Call(params)]. The value must be a function and
    not nil, the arguments as many as the parameters, none of them the zero
    [reflect.Value], and each of a type assignable to the type of its
    parameter, tested in this order; then the function runs on the
    arguments, from the store as it is. The call is recorded first.
    Variadic functions are left out. *)
Definition Call (f : Value) (ps : list (option Value)) : M (list Value) :=
  match signature (type_of f) with
  | None =>
      panic ("reflect: call of reflect.Value.Call on " ++ Kind_String (Kind_of f)
             ++ " Value")
  | Some (ins, _) =>
      match code_of f with
      | None => panic call_of_nil
      | Some code =>
          if (length ps <? length ins)%nat then
            panic "reflect: Call with too few input arguments"
          else if (length ins <? length ps)%nat then
            panic "reflect: Call with too many input arguments"
          else
            match arguments ps with
            | None => panic "reflect: Call using zero Value argument"
            | Some args =>
                match not_assignable args ins with
                | Some (xt, targ) =>
                    panic ("reflect: Call using " ++ type_string xt ++ " as type "
                           ++ type_string targ)
                | None =>
                    s ← get_store;
                    _ ← emit (Called code args s);
                    _ ← put_store (snd (call code args s));
                    lift (fst (call code args s))
                end
            end
      end
  end.

(** The closure that [LambdaWrap] returns for [f]. *)
Definition adapter (f : Value) (r : Request) : M unit :=
  p ← lambdaGetParams r f;
  match err p with
  | Some e => SendResp (Some e) None
  | None =>
      res ← Call f (params p);
      lambdaHandleRes (request p) res
  end.

(** An [http.HandlerFunc]: the function given, under that type, or the
    closure over [f]. *)
Inductive HandlerFunc :=
| Direct (code : option nat)
| Adapted (f : Value).

(** [reflect.TypeOf(nil)] is the nil [Type], whose [Kind()] cannot be
    called. *)
Definition LambdaWrap (f : any) : Res HandlerFunc :=
  match f with
  | None => Panic nil_dereference
  | Some v =>
      if type_eqb (type_of v) handlerFuncType then Ok (Direct (code_of v))
      else if type_eqb (type_of v) HandlerFuncType then Ok (Direct (code_of v))
      else if bool_decide (kind (type_of v) = KFunc) then Ok (Adapted v)
      else Panic "function expected"
  end.

(** ** Notions of the statements about the adapter *)

(** The status override recorded for the request, if any. *)
Definition recorded_status (l : option LambdaCtx) : option Z :=
  match l with
  | Some l' => if 0 <? Status l' then Some (Status l') else None
  | None => None
  end.

(** The world after [SendResp(w, r, err, data)]. *)
Definition responded (err : option GoError) (data : any) (w : World) : World :=
  {| store := store w; events := events w ++ [Sent err data] |}.

(** The request that the decoder is given: the request, with the context of
    the context parameter when the function declares one. *)
Definition decoded_request (ins : list GoType) (r : Request) (s : Store) : Request :=
  match ins with
  | in0 :: _ =>
      if Implements in0 contextType then WithContext r (fresh (dom (lambdas s)))
      else r
  | [] => r
  end.

(** What a [reflect.Value] holds: a value of a type that is no interface
    type holds itself; a value of an interface type holds the value inside
    it, if it is not nil. *)
Definition holds (res v : Value) : Prop :=
  (kind (type_of res) <> KInterface /\ v = res) \/
  (exists ms, bare res = VInterface ms (Some v)).

(** A nil value of an interface type. *)
Definition nil_interface (res : Value) : Prop :=
  exists ms, bare res = VInterface ms None.

(** Whether a value of type [any] is an invocable function value. *)
Definition is_function (f : any) : bool :=
  match f with
  | Some v => bool_decide (kind (type_of v) = KFunc)
  | None => false
  end.

(** Whether the pointer in a value, if it is one, points into the heap. *)
Definition allocated (v : Value) (s : Store) : bool :=
  match bare v with
  | VPtr _ (Some a) => bool_decide (is_Some (heap s !! a))
  | _ => true
  end.

End Adapter.
End Lambda.

(** * Sample values *)

Module Examples.
Import Lambda.

(** A W3C context, a B3 context in the multi-header form and an SDK
    context. *)
Definition parent : traceparent.TraceParent :=
  {| traceparent.version := "00";
     traceparent.traceID := "4bf92f3577b34da6a3ce929d0e0e4736";
     traceparent.spanID := "00f067aa0ba902b7";
     traceparent.flags := "01";
     traceparent.received := false |}.

Definition b3 : traceb3.TraceB3 :=
  {| traceb3.single := false;
     traceb3.traceID := "80f198ee56343ba864fe8b2a57d3eff7";
     traceb3.spanID := "e457b5a2e4d86bd1";
     traceb3.sampled := "1";
     traceb3.parentSpanID := "05e3ac9a4f6e3b90";
     traceb3.received := true |}.

Definition sdk : traceotel.TraceOTel :=
  {| traceotel.sc :=
       {| traceotel.sc_traceID := "0af7651916cd43dd8448eb211c80319c";
          traceotel.sc_spanID := "b7ad6b7169203331";
          traceotel.sc_sampled := true |};
     traceotel.received := false |}.

Definition tracer_sdk : SpecTracer.Tracer :=
  @Tracer.mkTracer spec_packages (@Tracer.OfTraceOTel spec_packages (Some sdk)) false.

Definition tracer_parent : SpecTracer.Tracer :=
  @Tracer.mkTracer spec_packages (@Tracer.OfTraceParent spec_packages (Some parent)) false.

Definition tracer_b3 : SpecTracer.Tracer :=
  @Tracer.mkTracer spec_packages (@Tracer.OfTraceB3 spec_packages (Some b3)) true.

(** A request without headers. *)
Definition plain_request (body : string) : Request :=
  {| req_Header := ∅; req_Body := body; req_Lambda := None |}.

(** [type Item struct { Name string; Count int }] *)
Definition ItemType : GoType := TNamed "Item" [] [] (TStruct [TString; TInt]).

Definition item (name : string) (count : Z) : Value :=
  VNamed "Item" [] [] (VStruct [VString name; VInt count]).

(** A function that takes a [context.Context] and a pointer to an [Item]
    and returns a pointer to an [Item] and an [error], at code pointer 7:
    it returns the pointer it is given and no error. *)
Definition create : Value :=
  VFunc [contextType; TPtr ItemType] [TPtr ItemType; errorType] (Some 7%nat).

(** A decoder that fails on an empty body and else makes an item named
    after the body; a validator that refuses the name "bad". *)
Definition decode (r : Request) (limit : Z) (target : Value) : GoError + Value :=
  if String.eqb (req_Body r) "" then inl (RestError None 400)
  else inr (item (req_Body r) 1).

Definition invalid_name : GoError :=
  ErrorValue (VNamed "validator.ValidationErrors" ["Error"] [] (VString "Name")).

Definition validate (v : Value) : option GoError :=
  match bare v with
  | VStruct (VString name :: _) =>
      if String.eqb name "bad" then Some invalid_name else None
  | _ => None
  end.

(** A function that takes a [context.Context] and returns nothing, at code
    pointer 8: it records the status 202 through the context. *)
Definition accept : Value := VFunc [contextType] [] (Some 8%nat).

(** A plain handler, at code pointer 9, under the function type and under
    [http.HandlerFunc]. *)
Definition handler : Value :=
  VFunc [ResponseWriterType; TPtr RequestType] [] (Some 9%nat).

Definition named_handler : Value := VNamed "http.HandlerFunc" ["ServeHTTP"] [] handler.

Definition behaviour (code : nat) (args : list Value) (s : Store)
    : Res (list Value) * Store :=
  match code, args with
  | 7%nat, [_; p] => (Ok [p; zero errorType], s)
  | 8%nat, [VContext a] =>
      (Ok [], {| heap := heap s; lambdas := <[a := {| Status := 202 |}]> (lambdas s) |})
  | _, _ => (Panic "no such function", s)
  end.

Definition collaborators : Collaborators :=
  {| GetRequestData := decode; validate_Struct := validate; call := behaviour |}.

Definition empty_store : Store := {| heap := ∅; lambdas := ∅ |}.

Definition empty_world : World := {| store := empty_store; events := [] |}.

(** The store in which [create] is called for a request with the body
    "pen": the item decoded at address 0, the [Lambda] of the request at
    address 0 of its own map. *)
Definition store_at_call : Store :=
  {| heap := <[0%nat := item "pen" 1]> ∅;
     lambdas := <[0%nat := {| Status := 0 |}]> ∅ |}.

End Examples.

(** * Switching the SDK on and off ([GetOTel], [SetOTel], [SetOTelGrpc]) *)

Module OTelSetup.

(** What the file takes from the SDK and the runtime: the resource and the
    exporter constructors, which may fail, the name of the program
    ([os.Args[0]]), [filepath.Base] and the environment. The sampling
    fraction is passed on as it is given. *)
Class SDK := {
  Resource : Type;
  Exporter : Type;
  Fraction : Type;
  SdkError : Type;
  resource_New : string -> SdkError + Resource;
  otlptracegrpc_New : string -> SdkError + Exporter;
  os_Args0 : string;
  filepath_Base : string -> string;
  os_Getenv : string -> string
}.

Section Setup.
Context {S : SDK}.

(** [sdktrace.ParentBased(sdktrace.TraceIDRatioBased(fraction))] *)
Inductive Sampler := ParentBased_TraceIDRatioBased (fraction : Fraction).

(** [sdktrace.NewBatchSpanProcessor(exporter)] *)
Inductive SpanProcessor := NewBatchSpanProcessor (exporter : Exporter).

(** A tracer provider, by the options it was made with. *)
Record TracerProvider := mkTracerProvider {
  WithSampler : option Sampler;
  WithResource : option Resource;
  WithSpanProcessor : option SpanProcessor
}.

(** [sdktrace.NewTracerProvider()] without options. *)
Definition NewTracerProvider : TracerProvider :=
  {| WithSampler := None; WithResource := None; WithSpanProcessor := None |}.

Inductive B3Option := WithInjectEncoding_B3MultipleHeader.

(** The propagators that [SetOTel] composes: [propagation.TraceContext{}]
    and [b3.New(...)] with its options. *)
Inductive Propagator :=
| TraceContext
| b3_New (opts : list B3Option).

(** The package variable [OtelEnabled] and the globals of [traceotel] and
    [otel] that [SetOTel] assigns; [None] and [[]] stand for what was there
    before any assignment by this package. *)
Record Globals := mkGlobals {
  OtelEnabled : bool;
  traceotel_TraceProvider : option TracerProvider;
  otel_TracerProvider : option TracerProvider;
  otel_TextMapPropagator : list Propagator
}.

(** The initial value of [OtelEnabled]. *)
Definition OtelEnabled_init : bool :=
  nonempty (os_Getenv "OTEL_EXPORTER_OTLP_ENDPOINT")
  || nonempty (os_Getenv "OTEL_EXPORTER_OTLP_TRACES_ENDPOINT").

Definition init : Globals :=
  {| OtelEnabled := OtelEnabled_init; traceotel_TraceProvider := None;
     otel_TracerProvider := None; otel_TextMapPropagator := [] |}.

Definition GetOTel (st : Globals) : bool := OtelEnabled st.

Definition SetOTel (enabled : bool) (tp : option TracerProvider) (st : Globals)
    : Globals :=
  if enabled then
    let tp' := match tp with Some p => p | None => NewTracerProvider end in
    {| OtelEnabled := enabled;
       traceotel_TraceProvider := Some tp';
       otel_TracerProvider := Some tp';
       otel_TextMapPropagator :=
         [TraceContext; b3_New []; b3_New [WithInjectEncoding_B3MultipleHeader]] |}
  else
    {| OtelEnabled := enabled;
       traceotel_TraceProvider := traceotel_TraceProvider st;
       otel_TracerProvider := otel_TracerProvider st;
       otel_TextMapPropagator := otel_TextMapPropagator st |}.

(** The result is the error returned, [None] for nil, and the globals. *)
Definition SetOTelGrpc (target : string) (fraction : Fraction) (st : Globals)
    : option SdkError * Globals :=
  let name := filepath_Base os_Args0 in
  match resource_New name with
  | inl err => (Some err, st)
  | inr res =>
      match otlptracegrpc_New target with
      | inl err => (Some err, st)
      | inr exporter =>
          let batchSpanProcessor := NewBatchSpanProcessor exporter in
          let tracerProvider :=
            {| WithSampler := Some (ParentBased_TraceIDRatioBased fraction);
               WithResource := Some res;
               WithSpanProcessor := Some batchSpanProcessor |} in
          (None, SetOTel true (Some tracerProvider) st)
      end
  end.

End Setup.
End OTelSetup.

(** * Notions of the statements about [lambdaGetParams] *)

Module AdapterNotions.
Import Lambda.

(** The arguments once the context parameter, if the function declares
    one, is bound. *)
Definition context_params (ins : list GoType) (ps : list (option Value))
    (s : Store) : list (option Value) :=
  match ins with
  | in0 :: _ =>
      if Implements in0 contextType
      then <[0%nat := Some (VContext (fresh (dom (lambdas s))))]> ps
      else ps
  | [] => ps
  end.

(** The store once the context parameter is bound: the new [Lambda] of the
    context, no status recorded. *)
Definition context_store (ins : list GoType) (s : Store) : Store :=
  match ins with
  | in0 :: _ =>
      if Implements in0 contextType
      then {| heap := heap s;
              lambdas := <[fresh (dom (lambdas s)) := {| Status := 0 |}]> (lambdas s) |}
      else s
  | [] => s
  end.

(** The store once the body is decoded to [v] at a new address. *)
Definition body_store (ins : list GoType) (elemType : GoType) (v : Value)
    (s : Store) : Store :=
  {| heap := <[fresh (dom (heap s)) := v]>
               (<[fresh (dom (heap s)) := zero elemType]> (heap s));
     lambdas := lambdas (context_store ins s) |}.

(** Whether the validator is consulted for a body of this type and, if so,
    what it answers. *)
Definition validation (g : Globals) {C : Collaborators} (elemType : GoType)
    (v : Value) : option GoError :=
  if LambdaValidator g && bool_decide (kind elemType = KStruct)
  then validate_Struct v else None.

(** Whether the context parameter, if the function declares one, can take
    the context that [NewRequestCtx] returns. *)
Definition takes_context (ins : list GoType) : bool :=
  match ins with
  | in0 :: _ =>
      if Implements in0 contextType then AssignableTo requestCtxType in0 else true
  | [] => true
  end.

(** A handler function type under another name. *)
Definition MyHandlerType : GoType := TNamed "MyHandler" [] [] handlerFuncType.

End AdapterNotions.

(** * Further sample values *)

Module MoreExamples.
Import Lambda.

(** A function that takes a context, a pointer to an [Item] and a number:
    one parameter more than the adapter fills. *)
Definition update : Value :=
  VFunc [contextType; TPtr Examples.ItemType; TInt] [errorType] (Some 7%nat).

(** A handler under a function type of the program's own. *)
Definition my_handler : Value := VNamed "MyHandler" [] [] Examples.handler.

(** [type MyErr struct{}] with [Error] declared on the pointer. *)
Definition MyErrType : GoType := TNamed "MyErr" [] ["Error"] (TStruct []).

(** [type NotFound string] with [Error] declared on the value, a value of
    it, and that value returned as an [error]. *)
Definition NotFoundType : GoType := TNamed "NotFound" ["Error"] [] TString.

Definition not_found : Value := VNamed "NotFound" ["Error"] [] (VString "no such item").

Definition error_of (v : Value) : Value :=
  VNamed "error" [] [] (VInterface ["Error"] (Some v)).

(** A request whose context carries the [Lambda] at address 0, and a store
    in which that [Lambda] has the status 202 and the heap holds an item. *)
Definition request_with_lambda : Request :=
  {| req_Header := ∅; req_Body := ""; req_Lambda := Some 0%nat |}.

Definition store_item_accepted : Store :=
  {| heap := <[0%nat := Examples.item "pen" 1]> ∅;
     lambdas := <[0%nat := {| Status := 202 |}]> ∅ |}.

(** A context type of a web framework: a pointer to a struct that has the
    methods of [context.Context]; and a function that takes it. *)
Definition GinContextType : GoType :=
  TPtr (TNamed "gin.Context" [] ["Deadline"; "Done"; "Err"; "Value"] (TStruct [])).

Definition gin_handler : Value := VFunc [GinContextType] [] (Some 8%nat).

(** A nil value of the type of [Examples.create]. *)
Definition nil_create : Value :=
  VFunc [contextType; TPtr Examples.ItemType] [TPtr Examples.ItemType; errorType] None.

(** The globals with validation switched off. *)
Definition no_validation : Globals :=
  {| LambdaMaxBytesToParse := 0; LambdaSanitizeJSON := false;
     LambdaValidator := false |}.

(** The store in which [Examples.accept] leaves the status 202. *)
Definition store_accepted : Store :=
  {| heap := ∅; lambdas := <[0%nat := {| Status := 202 |}]> ∅ |}.

End MoreExamples.

(** * Properties *)

(** ** Text and headers *)

Lemma split_dash_nonnil s : split_dash s <> [].
Proof.
  destruct s as [|c s]; simpl; [discriminate|].
  destruct (Ascii.eqb c dash); [discriminate|].
  destruct (split_dash s); discriminate.
Qed.

Lemma is_hex_digit_not_dash c : is_hex_digit c = true -> Ascii.eqb c dash = false.
Proof.
  intros H. destruct (Ascii.eqb_spec c dash) as [->|]; [|reflexivity].
  vm_compute in H. discriminate.
Qed.

Lemma split_dash_hex s : hexb s = true -> split_dash s = [s].
Proof.
  induction s as [|c s IH]; simpl; [reflexivity|].
  intros [Hc Hs]%andb_prop. rewrite (is_hex_digit_not_dash _ Hc), (IH Hs).
  reflexivity.
Qed.

Lemma split_dash_app s t :
  hexb s = true -> split_dash (s +:+ String dash t) = s :: split_dash t.
Proof.
  induction s as [|c s IH]; simpl.
  - intros _. reflexivity.
  - intros [Hc Hs]%andb_prop.
    rewrite (is_hex_digit_not_dash _ Hc), (IH Hs). reflexivity.
Qed.

Lemma split_join_dash (l : list string) :
  l <> [] -> Forall (fun s => hexb s = true) l -> split_dash (join_dash l) = l.
Proof.
  induction l as [|x l IH]; [congruence|].
  intros _ Hall. inversion Hall as [|? ? Hx Hl]; subst.
  destruct l as [|y l].
  - simpl. apply split_dash_hex, Hx.
  - change (join_dash (x :: y :: l)) with (x +:+ String dash (join_dash (y :: l))).
    rewrite split_dash_app by exact Hx. f_equal. apply IH; [discriminate|exact Hl].
Qed.

Lemma hex_digit_is_hex n : is_hex_digit (hex_digit n) = true.
Proof.
  unfold hex_digit.
  assert (H : (N.to_nat (n mod 16) < 16)%nat).
  { pose proof (N.mod_upper_bound n 16). lia. }
  destruct (N.to_nat (n mod 16)) as [|[|[|[|[|[|[|[|[|[|[|[|[|[|[|[|k]]]]]]]]]]]]]]]];
    try reflexivity; lia.
Qed.

Lemma hex_render_hex len n : hexb (hex_render len n) = true.
Proof.
  revert n; induction len as [|k IH]; intros n; simpl; [reflexivity|].
  rewrite hex_digit_is_hex, IH. reflexivity.
Qed.

Lemma hex_render_id k n : idb (hex_render (S k) n) = true.
Proof. unfold idb. simpl. rewrite hex_digit_is_hex, hex_render_hex. reflexivity. Qed.

Lemma idb_hex s : idb s = true -> hexb s = true.
Proof. unfold idb. intros [_ H]%andb_prop. exact H. Qed.

Lemma idb_nonempty s : idb s = true -> nonempty s = true.
Proof. unfold idb. intros [H _]%andb_prop. exact H. Qed.

Lemma Header_Get_Set k v (h : Header) : Header_Get k (Header_Set k v h) = v.
Proof. unfold Header_Get, Header_Set. rewrite lookup_insert_eq. reflexivity. Qed.

Lemma Header_Get_Set_ne k k' v (h : Header) :
  k' <> k -> Header_Get k (Header_Set k' v h) = Header_Get k h.
Proof.
  intros Hne. unfold Header_Get, Header_Set.
  rewrite lookup_insert_ne by exact Hne. reflexivity.
Qed.

Lemma Header_Get_empty k : Header_Get k (∅ : Header) = EmptyString.
Proof. unfold Header_Get. rewrite lookup_empty. reflexivity. Qed.

Lemma draw_id k tape : idb (fst (draw (S k) tape)) = true.
Proof. destruct tape; simpl; apply hex_render_id. Qed.

(** Rewriting of header reads after header writes, for concrete names. *)
Ltac header_simpl :=
  repeat first
    [ rewrite Header_Get_Set
    | rewrite Header_Get_Set_ne by discriminate
    | rewrite Header_Get_empty ].

(** ** The encodings: what is written is read back *)

Module EncodingFacts.

Lemma untraced_get h k :
  SpecTracer.untraced h = true -> In k SpecTracer.trace_headers ->
  Header_Get k h = EmptyString.
Proof.
  unfold SpecTracer.untraced. rewrite forallb_forall. intros H Hin.
  specialize (H k Hin). destruct (Header_Get k h); [reflexivity|discriminate].
Qed.

Lemma untraced_empty : SpecTracer.untraced ∅ = true.
Proof.
  unfold SpecTracer.untraced, SpecTracer.trace_headers. simpl.
  rewrite !Header_Get_empty. reflexivity.
Qed.

Lemma nonempty_join_dash x y l : nonempty (join_dash (x :: y :: l)) = true.
Proof.
  change (join_dash (x :: y :: l)) with (x +:+ String dash (join_dash (y :: l))).
  destruct x; reflexivity.
Qed.

(** W3C: the header written for a well-formed context parses to that
    context, marked as received. *)
Lemma traceparent_read_written d h body l :
  traceparent.wf d = true ->
  traceparent.NewFromRequest (mkRequest (traceparent.SetHeader d h) body l) =
  Some (traceparent.mk (traceparent.version d) (traceparent.traceID d)
          (traceparent.spanID d) (traceparent.flags d) true).
Proof.
  intros Hwf. unfold traceparent.NewFromRequest, traceparent.SetHeader. simpl.
  rewrite Header_Get_Set. unfold traceparent.value, traceparent.wf in *.
  apply andb_prop in Hwf as [[[Hv Ht]%andb_prop Hs]%andb_prop Hf].
  rewrite split_join_dash; [|discriminate|].
  - rewrite Hv, Ht, Hs, Hf. reflexivity.
  - repeat constructor; auto using idb_hex.
Qed.

(** W3C headers alone are no B3 headers. *)
Lemma traceb3_absent_after_traceparent d h body l :
  SpecTracer.untraced h = true ->
  traceb3.NewFromRequest (mkRequest (traceparent.SetHeader d h) body l) = None.
Proof.
  intros Hu. unfold traceb3.NewFromRequest, traceparent.SetHeader. simpl.
  unfold traceb3.header, traceb3.headerTraceID, traceparent.header.
  header_simpl.
  rewrite (untraced_get h "B3" Hu), (untraced_get h "X-B3-Traceid" Hu);
    [reflexivity| |]; unfold SpecTracer.trace_headers; simpl; tauto.
Qed.

Lemma split_value_b3 d :
  traceb3.wf d = true ->
  split_dash (traceb3.value d) =
  ([traceb3.traceID d; traceb3.spanID d] ++
   (if nonempty (traceb3.sampled d)
    then traceb3.sampled d ::
         (if nonempty (traceb3.parentSpanID d) then [traceb3.parentSpanID d] else [])
    else []))%list.
Proof.
  unfold traceb3.wf, traceb3.value.
  intros [[[Ht Hs]%andb_prop Hsa]%andb_prop Hp]%andb_prop.
  apply split_join_dash; [discriminate|].
  repeat (first [apply Forall_cons; split | apply Forall_nil_2
                | destruct (nonempty _)]; simpl); auto using idb_hex.
Qed.

(** B3: the headers written for a well-formed context parse to a context
    with the same identifiers. The combined header is read first, so a
    context in the multi-header form needs a collection that carries no
    combined header of its own; none of the trace headers, for short. *)
Lemma traceb3_read_written d h body l :
  traceb3.wf d = true ->
  traceb3.single d = true \/ SpecTracer.untraced h = true ->
  exists d',
    traceb3.NewFromRequest (mkRequest (traceb3.SetHeader d h) body l) = Some d' /\
    traceb3.traceID d' = traceb3.traceID d /\
    traceb3.spanID d' = traceb3.spanID d /\
    traceb3.wf d' = true.
Proof.
  intros Hwf Hcase.
  pose proof (split_value_b3 d Hwf) as Hsplit.
  unfold traceb3.wf in Hwf.
  apply andb_prop in Hwf as [[[Ht Hs]%andb_prop Hsa]%andb_prop Hp].
  unfold traceb3.NewFromRequest, traceb3.SetHeader. simpl.
  destruct (traceb3.single d) eqn:Hsingle.
  - unfold traceb3.header. rewrite Header_Get_Set.
    assert (Hne : nonempty (traceb3.value d) = true)
      by (unfold traceb3.value; simpl app; apply nonempty_join_dash).
    rewrite Hne, Hsplit. simpl.
    unfold traceb3.checked.
    destruct (nonempty (traceb3.sampled d));
      [destruct (nonempty (traceb3.parentSpanID d))|]; simpl;
      rewrite Ht, Hs, ?Hsa, ?Hp; simpl;
      (eexists; split; [reflexivity|]); simpl; unfold traceb3.wf; simpl;
      rewrite Ht, Hs, ?Hsa, ?Hp; auto.
  - destruct Hcase as [|Hu]; [discriminate|].
    unfold traceb3.header, traceb3.headerTraceID, traceb3.headerSpanID,
      traceb3.headerSampled, traceb3.headerParentSpanID, traceb3.checked.
    destruct (nonempty (traceb3.sampled d)) eqn:Hnsa;
      destruct (nonempty (traceb3.parentSpanID d)) eqn:Hnp;
      header_simpl;
      rewrite ?(untraced_get h "B3" Hu), ?(untraced_get h "X-B3-Sampled" Hu),
        ?(untraced_get h "X-B3-Parentspanid" Hu)
        by (unfold SpecTracer.trace_headers; simpl; tauto);
      simpl; rewrite (idb_nonempty _ Ht), Ht, Hs, ?Hsa, ?Hp; simpl;
      (eexists; split; [reflexivity|]); simpl; unfold traceb3.wf; simpl;
      rewrite Ht, Hs, ?Hsa, ?Hp; auto.
Qed.

(** SDK: what the composite propagator injects, it extracts. *)
Lemma traceotel_read_written c h body l parent :
  idb (traceotel.sc_traceID c) = true -> idb (traceotel.sc_spanID c) = true ->
  traceotel.Extract parent (mkRequest (traceotel.Inject c h) body l) = Some c.
Proof.
  intros Ht Hs. unfold traceotel.Extract, traceotel.Inject.
  unfold traceb3.NewFromRequest, traceb3.SetHeader, traceparent.SetHeader. simpl.
  unfold traceb3.header, traceb3.headerTraceID, traceb3.headerSpanID,
    traceb3.headerSampled, traceb3.headerParentSpanID, traceparent.header.
  assert (Hsplit : forall x, hexb x = true ->
            split_dash (join_dash [traceotel.sc_traceID c; traceotel.sc_spanID c; x]) =
            [traceotel.sc_traceID c; traceotel.sc_spanID c; x]).
  { intros x Hx. apply split_join_dash; [discriminate|].
    repeat constructor; auto using idb_hex. }
  destruct c as [t sid [|]]; cbn [traceotel.sc_traceID traceotel.sc_spanID] in *;
    unfold traceotel.as_b3, traceotel.as_traceparent; cbn [traceotel.sc_sampled];
    cbn [traceb3.single traceb3.sampled traceb3.parentSpanID nonempty
         traceb3.traceID traceb3.spanID];
    header_simpl.
  all: unfold traceb3.value; cbn [traceb3.sampled traceb3.parentSpanID nonempty
         traceb3.traceID traceb3.spanID app].
  all: rewrite nonempty_join_dash, Hsplit by reflexivity.
  all: unfold traceb3.checked; rewrite Ht, Hs; reflexivity.
Qed.

(** What the parsers return is well formed, and so is what is drawn at
    random or derived as a child span. *)
Lemma traceparent_parsed_wf r d :
  traceparent.NewFromRequest r = Some d -> traceparent.wf d = true.
Proof.
  unfold traceparent.NewFromRequest.
  destruct (split_dash _) as [|v [|t [|s [|f [|]]]]]; try discriminate.
  destruct (hexb v && idb t && idb s && hexb f) eqn:E; [|discriminate].
  intros [= <-]. exact E.
Qed.

Lemma traceb3_checked_wf sgl t s sa p d :
  traceb3.checked sgl t s sa p = Some d -> traceb3.wf d = true.
Proof.
  unfold traceb3.checked.
  destruct (idb t && idb s && hexb sa && hexb p) eqn:E; [|discriminate].
  intros [= <-]. exact E.
Qed.

Lemma traceb3_parsed_wf r d :
  traceb3.NewFromRequest r = Some d -> traceb3.wf d = true.
Proof.
  unfold traceb3.NewFromRequest.
  destruct (nonempty (Header_Get traceb3.header _)).
  - destruct (split_dash _) as [|t [|s [|sa [|p [|]]]]]; try discriminate;
      apply traceb3_checked_wf.
  - destruct (nonempty _); [apply traceb3_checked_wf|discriminate].
Qed.

Lemma traceotel_parsed_wf r d :
  traceotel.NewFromRequest r = Some d -> traceotel.wf d = true.
Proof.
  unfold traceotel.NewFromRequest, traceotel.NewFromRequestWithContext,
    traceotel.Extract.
  destruct (traceb3.NewFromRequest r) as [b|] eqn:Eb.
  - intros [= <-]. apply traceb3_parsed_wf in Eb.
    unfold traceb3.wf in Eb. unfold traceotel.wf, traceotel.traceID, traceotel.spanID. simpl.
    apply andb_prop in Eb as [[[-> ->]%andb_prop _]%andb_prop _]. reflexivity.
  - destruct (traceparent.NewFromRequest r) as [p|] eqn:Ep; [|discriminate].
    intros [= <-]. apply traceparent_parsed_wf in Ep.
    unfold traceparent.wf in Ep. unfold traceotel.wf, traceotel.traceID, traceotel.spanID. simpl.
    apply andb_prop in Ep as [[[_ ->]%andb_prop ->]%andb_prop _]. reflexivity.
Qed.

Lemma traceb3_random tape :
  traceb3.wf (fst (traceb3.NewRandom tape)) = true /\
  traceb3.received (fst (traceb3.NewRandom tape)) = false.
Proof.
  unfold traceb3.NewRandom.
  pose proof (draw_id 31 tape) as H1.
  destruct (draw 32 tape) as [t tape1].
  pose proof (draw_id 15 tape1) as H2.
  destruct (draw 16 tape1) as [s tape2]. simpl in *.
  unfold traceb3.wf. simpl. rewrite H1, H2. auto.
Qed.

Lemma traceotel_random tape :
  traceotel.wf (fst (traceotel.NewRandom tape)) = true /\
  traceotel.received (fst (traceotel.NewRandom tape)) = false.
Proof.
  unfold traceotel.NewRandom.
  pose proof (draw_id 31 tape) as H1.
  destruct (draw 32 tape) as [t tape1].
  pose proof (draw_id 15 tape1) as H2.
  destruct (draw 16 tape1) as [s tape2]. simpl in *.
  unfold traceotel.wf, traceotel.traceID, traceotel.spanID. simpl.
  rewrite H1, H2. auto.
Qed.

Lemma traceparent_child_wf d tape :
  traceparent.wf d = true ->
  traceparent.wf (traceparent.child d (fst (draw 16 tape))) = true.
Proof.
  unfold traceparent.wf. simpl.
  intros [[[-> ->]%andb_prop _]%andb_prop ->]%andb_prop.
  rewrite (draw_id 15 tape). reflexivity.
Qed.

Lemma traceb3_child_wf d tape :
  traceb3.wf d = true ->
  traceb3.wf (traceb3.child d (fst (draw 16 tape))) = true.
Proof.
  unfold traceb3.wf. simpl.
  intros [[[-> Hs]%andb_prop ->]%andb_prop _]%andb_prop.
  rewrite (draw_id 15 tape), (idb_hex _ Hs). reflexivity.
Qed.

Lemma traceotel_child_wf d tape :
  traceotel.wf d = true ->
  traceotel.wf (traceotel.child d (fst (draw 16 tape))) = true.
Proof.
  unfold traceotel.wf, traceotel.traceID, traceotel.spanID. simpl.
  unfold traceotel.traceID.
  intros [-> _]%andb_prop. rewrite (draw_id 15 tape). reflexivity.
Qed.

End EncodingFacts.

(** ** The tracer *)

Module TracerFacts.

Section Resolver.
Context {P : Tracer.Packages}.

(** With the SDK disabled, the resolver returns the B3 context when
    [traceb3] finds one, else the W3C context when [traceparent] finds one,
    else nil; it does not panic. *)
Lemma NewFromRequest_disabled (r : Request) :
  Tracer.NewFromRequest false r =
  Ok match Tracer.traceb3_NewFromRequest r with
     | Some d => Some (Tracer.mkTracer (Tracer.OfTraceB3 (Some d)) true)
     | None =>
         match Tracer.traceparent_NewFromRequest r with
         | Some d => Some (Tracer.mkTracer (Tracer.OfTraceParent (Some d)) true)
         | None => None
         end
     end.
Proof.
  unfold Tracer.NewFromRequest. simpl.
  destruct (Tracer.traceb3_NewFromRequest r) as [d|]; simpl; [reflexivity|].
  destruct (Tracer.traceparent_NewFromRequest r) as [d|]; reflexivity.
Qed.

Lemma NewFromRequest_enabled (r : Request) :
  Tracer.NewFromRequest true r =
  Ok match Tracer.traceotel_NewFromRequest r with
     | Some d => Some (Tracer.mkTracer (Tracer.OfTraceOTel (Some d)) true)
     | None => None
     end.
Proof.
  unfold Tracer.NewFromRequest. simpl.
  destruct (Tracer.traceotel_NewFromRequest r) as [d|]; reflexivity.
Qed.

(** C6: with the SDK disabled, [NewFromRequest] never panics and returns
    the context parsed from the B3 headers if there is one; only when there
    is none, the context parsed from the W3C header; and nil when there is
    neither. *)
Theorem NewFromRequest_b3_then_traceparent (r : Request) :
  exists result : option Tracer.Tracer,
    Tracer.NewFromRequest false r = Ok result /\
    (forall d, Tracer.traceb3_NewFromRequest r = Some d ->
       result = Some (Tracer.mkTracer (Tracer.OfTraceB3 (Some d)) true)) /\
    (forall d, Tracer.traceb3_NewFromRequest r = None ->
       Tracer.traceparent_NewFromRequest r = Some d ->
       result = Some (Tracer.mkTracer (Tracer.OfTraceParent (Some d)) true)) /\
    (Tracer.traceb3_NewFromRequest r = None ->
       Tracer.traceparent_NewFromRequest r = None -> result = None).
Proof.
  eexists. split; [apply NewFromRequest_disabled|].
  repeat split.
  - intros d ->. reflexivity.
  - intros d -> ->. reflexivity.
  - intros -> ->. reflexivity.
Qed.

(** C9: with the SDK disabled, [NewFromRequestWithContext] returns what
    [NewFromRequest] returns, whatever the parent context; the parent
    context reaches only [traceotel.NewFromRequestWithContext], which is
    called with the SDK enabled. *)
Theorem NewFromRequestWithContext_disabled (parentCtx : Tracer.Context) (r : Request) :
  Tracer.NewFromRequestWithContext false parentCtx r = Tracer.NewFromRequest false r /\
  Tracer.NewFromRequestWithContext true parentCtx r =
  Ok match Tracer.traceotel_NewFromRequestWithContext parentCtx r with
     | Some d => Some (Tracer.mkTracer (Tracer.OfTraceOTel (Some d)) true)
     | None => None
     end.
Proof.
  split.
  - unfold Tracer.NewFromRequestWithContext, Tracer.NewFromRequest. reflexivity.
  - unfold Tracer.NewFromRequestWithContext. simpl.
    destruct (Tracer.traceotel_NewFromRequestWithContext parentCtx r); reflexivity.
Qed.

Lemma NewRandom_IsReceived (OtelEnabled : bool) (tape : Tape) :
  Tracer.IsReceived (fst (Tracer.NewRandom OtelEnabled tape)) =
  Ok (if OtelEnabled
      then Tracer.td_IsReceived (fst (Tracer.traceotel_NewRandom (Packages := P) tape))
      else Tracer.td_IsReceived (fst (Tracer.traceb3_NewRandom (Packages := P) tape))).
Proof.
  unfold Tracer.NewRandom. destruct OtelEnabled.
  - destruct (Tracer.traceotel_NewRandom tape). reflexivity.
  - destruct (Tracer.traceb3_NewRandom tape). reflexivity.
Qed.

Lemma NewFromRequest_unrecognized (OtelEnabled : bool) (r : Request) :
  Tracer.recognized OtelEnabled r = false ->
  Tracer.NewFromRequest OtelEnabled r = Ok None.
Proof.
  unfold Tracer.recognized. destruct OtelEnabled.
  - rewrite NewFromRequest_enabled.
    destruct (Tracer.traceotel_NewFromRequest r); [discriminate|reflexivity].
  - rewrite NewFromRequest_disabled.
    destruct (Tracer.traceb3_NewFromRequest r); [discriminate|].
    destruct (Tracer.traceparent_NewFromRequest r); [discriminate|reflexivity].
Qed.

(** C3: [NewFromRequestOrRandom] returns a tracer, never nil; and when the
    request carries no trace header that the resolver recognizes, the
    tracer reports that it was not received, given that the contexts which
    [traceb3.NewRandom] and [traceotel.NewRandom] fabricate say so
    ([IsReceived] is answered by the context, not by the tracer's own
    field). *)
Theorem NewFromRequestOrRandom_never_nil (OtelEnabled : bool) (r : Request) (tape : Tape) :
  exists (t : Tracer.Tracer) (tape' : Tape),
    Tracer.NewFromRequestOrRandom OtelEnabled r tape = Ok (Some t, tape') /\
    ((forall tp, Tracer.td_IsReceived
                   (fst (Tracer.traceb3_NewRandom (Packages := P) tp)) = false) ->
     (forall tp, Tracer.td_IsReceived
                   (fst (Tracer.traceotel_NewRandom (Packages := P) tp)) = false) ->
     Tracer.recognized OtelEnabled r = false ->
     Tracer.IsReceived t = Ok false).
Proof.
  unfold Tracer.NewFromRequestOrRandom.
  destruct (Tracer.recognized OtelEnabled r) eqn:Hrec.
  - assert (Hok : exists o, Tracer.NewFromRequest OtelEnabled r = Ok o).
    { destruct OtelEnabled; eexists;
        [apply NewFromRequest_enabled|apply NewFromRequest_disabled]. }
    destruct Hok as [o ->]. simpl. destruct o as [t|].
    + exists t, tape. split; [reflexivity|discriminate].
    + pose proof (NewRandom_IsReceived OtelEnabled tape) as Hr.
      destruct (Tracer.NewRandom OtelEnabled tape) as [t tape'].
      exists t, tape'. split; [reflexivity|discriminate].
  - rewrite (NewFromRequest_unrecognized _ _ Hrec). simpl.
    pose proof (NewRandom_IsReceived OtelEnabled tape) as Hr.
    destruct (Tracer.NewRandom OtelEnabled tape) as [t tape'].
    exists t, tape'. split; [reflexivity|].
    intros Hb3 Hot _. simpl in Hr. rewrite Hr.
    destruct OtelEnabled; [rewrite Hot|rewrite Hb3]; reflexivity.
Qed.

End Resolver.

(** *** Over the encodings of the specification *)

Section Encodings.
Existing Instance spec_packages.

(** The headers that a well-formed tracer writes into a collection without
    trace headers resolve, under the setting of [OtelEnabled] that goes
    with its encoding, to a well-formed tracer with the same trace and span
    identifiers. *)
Lemma written_resolves (t : SpecTracer.Tracer) (h0 : Header) (body : string)
    (l : option nat) :
  SpecTracer.well_formed t = true ->
  SpecTracer.untraced h0 = true ->
  exists (h : Header) (t' : SpecTracer.Tracer) (tid sid : string),
    Tracer.SetHeader t h0 = Ok h /\
    Tracer.NewFromRequest (SpecTracer.encoding_flag t) (mkRequest h body l) = Ok (Some t') /\
    Tracer.TraceID t = Ok tid /\ Tracer.TraceID t' = Ok tid /\
    Tracer.SpanID t = Ok sid /\ Tracer.SpanID t' = Ok sid /\
    SpecTracer.well_formed t' = true.
Proof.
  destruct t as [[|[d|]|[d|]|[d|]] rcv]; try discriminate;
    unfold SpecTracer.well_formed, SpecTracer.encoding_flag; simpl;
    intros Hwf Hu.
  - destruct (EncodingFacts.traceb3_read_written d h0 body l Hwf (or_intror Hu))
      as (d' & Hparse & Ht & Hs & Hwf').
    exists (traceb3.SetHeader d h0),
      (@Tracer.mkTracer spec_packages (@Tracer.OfTraceB3 spec_packages (Some d')) true),
      (traceb3.traceID d), (traceb3.spanID d).
    rewrite NewFromRequest_disabled. simpl. rewrite Hparse.
    unfold Tracer.SetHeader, Tracer.TraceID, Tracer.SpanID. simpl.
    rewrite Ht, Hs. auto 10.
  - exists (traceparent.SetHeader d h0),
      (@Tracer.mkTracer spec_packages (@Tracer.OfTraceParent spec_packages
         (Some (traceparent.mk (traceparent.version d) (traceparent.traceID d)
                  (traceparent.spanID d) (traceparent.flags d) true))) true),
      (traceparent.traceID d), (traceparent.spanID d).
    rewrite NewFromRequest_disabled. simpl.
    rewrite (EncodingFacts.traceb3_absent_after_traceparent d h0 body l Hu).
    rewrite (EncodingFacts.traceparent_read_written d h0 body l Hwf).
    unfold Tracer.SetHeader, Tracer.TraceID, Tracer.SpanID. simpl.
    auto 10.
  - unfold traceotel.wf in Hwf. apply andb_prop in Hwf as [Ht Hs].
    exists (traceotel.SetHeader d h0),
      (@Tracer.mkTracer spec_packages (@Tracer.OfTraceOTel spec_packages
         (Some (traceotel.mk (traceotel.sc d) true))) true),
      (traceotel.traceID d), (traceotel.spanID d).
    rewrite NewFromRequest_enabled. simpl.
    unfold traceotel.NewFromRequest, traceotel.NewFromRequestWithContext,
      traceotel.SetHeader.
    rewrite (EncodingFacts.traceotel_read_written (traceotel.sc d) h0 body l None Ht Hs).
    unfold Tracer.SetHeader, Tracer.TraceID, Tracer.SpanID. simpl.
    unfold traceotel.wf, traceotel.traceID, traceotel.spanID in *. simpl.
    rewrite Ht, Hs. auto 10.
Qed.

(** Every tracer that the package hands out is well formed: those resolved
    from a request and those made at random. *)
Lemma resolved_well_formed (OtelEnabled : bool) (r : Request) (t : SpecTracer.Tracer) :
  Tracer.NewFromRequest OtelEnabled r = Ok (Some t) ->
  SpecTracer.well_formed t = true /\ SpecTracer.encoding_flag t = OtelEnabled.
Proof.
  destruct OtelEnabled.
  - rewrite NewFromRequest_enabled. simpl.
    destruct (traceotel.NewFromRequest r) as [d|] eqn:E; [|discriminate].
    intros [= <-]. split; [|reflexivity].
    apply (EncodingFacts.traceotel_parsed_wf r d E).
  - rewrite NewFromRequest_disabled. simpl.
    destruct (traceb3.NewFromRequest r) as [d|] eqn:E.
    + intros [= <-]. split; [|reflexivity].
      apply (EncodingFacts.traceb3_parsed_wf r d E).
    + destruct (traceparent.NewFromRequest r) as [d|] eqn:E'; [|discriminate].
      intros [= <-]. split; [|reflexivity].
      apply (EncodingFacts.traceparent_parsed_wf r d E').
Qed.

Lemma random_well_formed (OtelEnabled : bool) (tape : Tape) :
  SpecTracer.well_formed (fst (Tracer.NewRandom OtelEnabled tape)) = true /\
  SpecTracer.encoding_flag (fst (Tracer.NewRandom OtelEnabled tape)) = OtelEnabled.
Proof.
  unfold Tracer.NewRandom. destruct OtelEnabled; simpl.
  - pose proof (EncodingFacts.traceotel_random tape) as [H _].
    destruct (traceotel.NewRandom tape). auto.
  - pose proof (EncodingFacts.traceb3_random tape) as [H _].
    destruct (traceb3.NewRandom tape). auto.
Qed.

(** C1: for a well-formed trace context in any of the three encodings,
    [SetHeader] into the headers of a request that carried no trace header,
    followed by [NewFromRequest] on that request, gives a tracer with the
    same [TraceID] and the same [SpanID]. [OtelEnabled] is set as the
    encoding of the context requires. *)
Theorem SetHeader_NewFromRequest_roundtrip (t : SpecTracer.Tracer) (h0 : Header)
    (body : string) (l : option nat) :
  SpecTracer.well_formed t = true ->
  SpecTracer.untraced h0 = true ->
  exists (h : Header) (t' : SpecTracer.Tracer) (tid sid : string),
    Tracer.SetHeader t h0 = Ok h /\
    Tracer.NewFromRequest (SpecTracer.encoding_flag t) (mkRequest h body l) = Ok (Some t') /\
    Tracer.TraceID t = Ok tid /\ Tracer.TraceID t' = Ok tid /\
    Tracer.SpanID t = Ok sid /\ Tracer.SpanID t' = Ok sid.
Proof.
  intros Hwf Hu.
  destruct (written_resolves t h0 body l Hwf Hu)
    as (h & t' & tid & sid & H1 & H2 & H3 & H4 & H5 & H6 & _).
  exists h, t', tid, sid. auto 10.
Qed.

(** One call of [Span]: the tracer and the request given are as before; the
    returned request is a copy with the headers of the child span. *)
Lemma Span_once (t : SpecTracer.Tracer) (r : Request) (tape : Tape) :
  SpecTracer.well_formed t = true ->
  exists (h : Header) (log : string),
    Tracer.SetHeader (SpecTracer.child t (fst (draw 16 tape))) (req_Header r) = Ok h /\
    Tracer.Span t r tape =
    Ok (Tracer.mkSpanOut t r (with_Header r h) log (snd (draw 16 tape))).
Proof.
  destruct t as [[|[d|]|[d|]|[d|]] rcv]; try discriminate; intros _;
    unfold Tracer.Span, Tracer.SetHeader, SpecTracer.child; simpl;
    [unfold traceb3.Span|unfold traceparent.Span|unfold traceotel.Span];
    destruct (draw 16 tape) as [sid tape']; simpl; eauto.
Qed.

Lemma child_well_formed (t : SpecTracer.Tracer) (tape : Tape) :
  SpecTracer.well_formed t = true ->
  SpecTracer.well_formed (SpecTracer.child t (fst (draw 16 tape))) = true /\
  SpecTracer.encoding_flag (SpecTracer.child t (fst (draw 16 tape))) =
  SpecTracer.encoding_flag t /\
  Tracer.TraceID (SpecTracer.child t (fst (draw 16 tape))) = Tracer.TraceID t.
Proof.
  destruct t as [[|[d|]|[d|]|[d|]] rcv]; try discriminate;
    unfold SpecTracer.well_formed, SpecTracer.child, SpecTracer.encoding_flag,
      Tracer.TraceID; simpl; intros Hwf;
    auto using EncodingFacts.traceb3_child_wf, EncodingFacts.traceparent_child_wf,
      EncodingFacts.traceotel_child_wf.
Qed.

Lemma Span_times_frame (n : nat) (t : SpecTracer.Tracer) (r : Request) (tape : Tape) :
  SpecTracer.well_formed t = true ->
  exists tape', Tracer.Span_times n t r tape = Ok (t, r, tape').
Proof.
  intros Hwf. revert tape. induction n as [|n IH]; intros tape; simpl.
  - eauto.
  - destruct (Span_once t r tape Hwf) as (h & log & _ & ->). simpl. apply IH.
Qed.

(** C8: [Span] leaves the tracer and the request it is given as they were,
    however often it is called: the tracer reports the same trace and span
    identifiers afterwards, and the span goes to a copy of the request. Two
    calls in a row, on a request that carried no trace header, return
    requests that both resolve to the trace identifier of the tracer. *)
Theorem Span_leaves_tracer_and_request (t : SpecTracer.Tracer) (r : Request)
    (tape : Tape) :
  SpecTracer.well_formed t = true ->
  (forall n : nat, exists tape', Tracer.Span_times n t r tape = Ok (t, r, tape')) /\
  (SpecTracer.untraced (req_Header r) = true ->
   exists (o1 o2 : Tracer.SpanOut) (t1 t2 : SpecTracer.Tracer) (tid : string),
     Tracer.Span t r tape = Ok o1 /\
     Tracer.Span (Tracer.so_self o1) (Tracer.so_orig o1) (Tracer.so_tape o1) = Ok o2 /\
     Tracer.so_self o1 = t /\ Tracer.so_orig o1 = r /\
     Tracer.so_self o2 = t /\ Tracer.so_orig o2 = r /\
     Tracer.NewFromRequest (SpecTracer.encoding_flag t) (Tracer.so_req o1) = Ok (Some t1) /\
     Tracer.NewFromRequest (SpecTracer.encoding_flag t) (Tracer.so_req o2) = Ok (Some t2) /\
     Tracer.TraceID t = Ok tid /\
     Tracer.TraceID t1 = Ok tid /\ Tracer.TraceID t2 = Ok tid).
Proof.
  intros Hwf. split.
  - intros n. apply Span_times_frame, Hwf.
  - intros Hu.
    assert (Hres : forall tp, exists (o : Tracer.SpanOut) (t' : SpecTracer.Tracer) (tid : string),
              Tracer.Span t r tp = Ok o /\
              Tracer.so_self o = t /\ Tracer.so_orig o = r /\
              Tracer.NewFromRequest (SpecTracer.encoding_flag t) (Tracer.so_req o) = Ok (Some t') /\
              Tracer.TraceID t = Ok tid /\ Tracer.TraceID t' = Ok tid).
    { intros tp.
      destruct (Span_once t r tp Hwf) as (h & log & Hset & Hspan).
      destruct (child_well_formed t tp Hwf) as (Hcwf & Hflag & Htid).
      destruct (written_resolves _ (req_Header r) (req_Body r) (req_Lambda r) Hcwf Hu)
        as (h' & t' & tid & sid & H1 & H2 & H3 & H4 & _).
      rewrite Hset in H1. injection H1 as <-. rewrite Hflag in H2. rewrite Htid in H3.
      eexists _, t', tid. rewrite Hspan. simpl. auto 10. }
    destruct (Hres tape) as (o1 & t1 & tid & Hs1 & Hself1 & Horig1 & Hr1 & Ht & Ht1).
    destruct (Hres (Tracer.so_tape o1)) as (o2 & t2 & tid' & Hs2 & Hself2 & Horig2 & Hr2 & Ht' & Ht2).
    rewrite Ht in Ht'. injection Ht' as <-.
    exists o1, o2, t1, t2, tid. rewrite Hself1, Horig1. auto 12.
Qed.

End Encodings.

(** A request with a B3 header and a W3C header resolves to the B3
    context when the SDK is disabled. *)
Example b3_header_first :
  res_bind
    (Tracer.NewFromRequest (P := spec_packages) false
       (mkRequest
          (Header_Set "B3" "80f198ee56343ba8-e457b5a2e4d86bd1-1"
             (Header_Set "Traceparent"
                "00-4bf92f3577b34da6a3ce929d0e0e4736-00f067aa0ba902b7-01" ∅))
          "" None))
    (fun t => match t with Some t => Tracer.TraceID t | None => Ok "" end) =
  Ok "80f198ee56343ba8".
Proof. reflexivity. Qed.

(** The log string of a span: the trace of the tracer, the span drawn. *)
Example Span_log :
  res_bind (Tracer.Span Examples.tracer_parent (Examples.plain_request "") [255%N])
    (fun o => Ok (Tracer.so_log o)) =
  Ok "00-4bf92f3577b34da6a3ce929d0e0e4736-ff00000000000000-01".
Proof. reflexivity. Qed.

(** The round trip of a W3C context, of a B3 context and of an SDK
    context. *)
Lemma roundtrip_witness :
  (exists (h : Header) (t' : SpecTracer.Tracer) (tid sid : string),
     Tracer.SetHeader Examples.tracer_parent ∅ = Ok h /\
     Tracer.NewFromRequest false (mkRequest h "" None) = Ok (Some t') /\
     Tracer.TraceID Examples.tracer_parent = Ok tid /\ Tracer.TraceID t' = Ok tid /\
     Tracer.SpanID Examples.tracer_parent = Ok sid /\ Tracer.SpanID t' = Ok sid) /\
  (exists (h : Header) (t' : SpecTracer.Tracer) (tid sid : string),
     Tracer.SetHeader Examples.tracer_b3 ∅ = Ok h /\
     Tracer.NewFromRequest false (mkRequest h "" None) = Ok (Some t') /\
     Tracer.TraceID Examples.tracer_b3 = Ok tid /\ Tracer.TraceID t' = Ok tid /\
     Tracer.SpanID Examples.tracer_b3 = Ok sid /\ Tracer.SpanID t' = Ok sid) /\
  (exists (h : Header) (t' : SpecTracer.Tracer) (tid sid : string),
     Tracer.SetHeader Examples.tracer_sdk ∅ = Ok h /\
     Tracer.NewFromRequest true (mkRequest h "" None) = Ok (Some t') /\
     Tracer.TraceID Examples.tracer_sdk = Ok tid /\ Tracer.TraceID t' = Ok tid /\
     Tracer.SpanID Examples.tracer_sdk = Ok sid /\ Tracer.SpanID t' = Ok sid).
Proof.
  split; [|split].
  - apply (SetHeader_NewFromRequest_roundtrip Examples.tracer_parent ∅ "" None);
      reflexivity.
  - apply (SetHeader_NewFromRequest_roundtrip Examples.tracer_b3 ∅ "" None);
      reflexivity.
  - apply (SetHeader_NewFromRequest_roundtrip Examples.tracer_sdk ∅ "" None);
      reflexivity.
Defined.

(** A B3 context through any number of spans. *)
Lemma Span_b3_witness :
  (forall n : nat, exists tape',
     Tracer.Span_times n Examples.tracer_b3 (Examples.plain_request "") [5%N; 9%N] =
     Ok (Examples.tracer_b3, Examples.plain_request "", tape')) /\
  (SpecTracer.untraced (req_Header (Examples.plain_request "")) = true ->
   exists (o1 o2 : Tracer.SpanOut) (t1 t2 : SpecTracer.Tracer) (tid : string),
     Tracer.Span Examples.tracer_b3 (Examples.plain_request "") [5%N; 9%N] = Ok o1 /\
     Tracer.Span (Tracer.so_self o1) (Tracer.so_orig o1) (Tracer.so_tape o1) = Ok o2 /\
     Tracer.so_self o1 = Examples.tracer_b3 /\
     Tracer.so_orig o1 = Examples.plain_request "" /\
     Tracer.so_self o2 = Examples.tracer_b3 /\
     Tracer.so_orig o2 = Examples.plain_request "" /\
     Tracer.NewFromRequest (SpecTracer.encoding_flag Examples.tracer_b3)
       (Tracer.so_req o1) = Ok (Some t1) /\
     Tracer.NewFromRequest (SpecTracer.encoding_flag Examples.tracer_b3)
       (Tracer.so_req o2) = Ok (Some t2) /\
     Tracer.TraceID Examples.tracer_b3 = Ok tid /\
     Tracer.TraceID t1 = Ok tid /\ Tracer.TraceID t2 = Ok tid).
Proof.
  apply (Span_leaves_tracer_and_request Examples.tracer_b3
           (Examples.plain_request "") [5%N; 9%N]).
  reflexivity.
Defined.

(** A request without headers, the SDK disabled: the tracer is a random
    one and says so. *)
Lemma NewFromRequestOrRandom_witness :
  exists (t : SpecTracer.Tracer) (tape' : Tape),
    Tracer.NewFromRequestOrRandom false (Examples.plain_request "") [5%N; 9%N] =
      Ok (Some t, tape') /\
    Tracer.IsReceived t = Ok false.
Proof.
  destruct (NewFromRequestOrRandom_never_nil (P := spec_packages) false
              (Examples.plain_request "") [5%N; 9%N]) as (t & tape' & Hret & Hrcv).
  exists t, tape'. split; [exact Hret|].
  apply Hrcv.
  - intros tp. apply EncodingFacts.traceb3_random.
  - intros tp. apply EncodingFacts.traceotel_random.
  - reflexivity.
Defined.

End TracerFacts.

(** ** The handler adapter *)

Module LambdaFacts.
Import Lambda.

(** Induction over types that reaches the types nested in lists. *)
Lemma GoType_nested_ind (P : GoType -> Prop)
    (HBool : P TBool) (HInt : P TInt) (HString : P TString)
    (HStruct : forall fs, Forall P fs -> P (TStruct fs))
    (HPtr : forall e, P e -> P (TPtr e))
    (HInterface : forall ms, P (TInterface ms))
    (HFunc : forall ins outs, Forall P ins -> Forall P outs -> P (TFunc ins outs))
    (HNamed : forall n ms pms u, P u -> P (TNamed n ms pms u)) :
  forall t, P t.
Proof.
  refine (fix IH (t : GoType) : P t :=
    let all := fix all (l : list GoType) : Forall P l :=
      match l with
      | [] => Forall_nil_2 P
      | x :: rest => Forall_cons_2 P x rest (IH x) (all rest)
      end in
    match t with
    | TBool => HBool
    | TInt => HInt
    | TString => HString
    | TStruct fs => HStruct fs (all fs)
    | TPtr e => HPtr e (IH e)
    | TInterface ms => HInterface ms
    | TFunc ins outs => HFunc ins outs (all ins) (all outs)
    | TNamed n ms pms u => HNamed n ms pms u (IH u)
    end).
Qed.

Lemma list_eqb_eq {A} (eqb : A -> A -> bool) (l : list A) :
  Forall (fun x => forall y, eqb x y = true <-> x = y) l ->
  forall l', list_eqb eqb l l' = true <-> l = l'.
Proof.
  induction 1 as [|x l Hx _ IH]; intros [|y l']; simpl;
    try (split; [discriminate|discriminate]); [tauto|].
  rewrite andb_true_iff, Hx, IH. split; [intros [-> ->]; reflexivity|].
  intros [= -> ->]. auto.
Qed.

Lemma strings_eqb_eq (l l' : list string) :
  list_eqb String.eqb l l' = true <-> l = l'.
Proof.
  apply list_eqb_eq, Forall_forall. intros x _ y. apply String.eqb_eq.
Qed.

(** [type_eqb] decides the identity of types. *)
Lemma type_eqb_eq (a b : GoType) : type_eqb a b = true <-> a = b.
Proof.
  revert b. induction a using GoType_nested_ind; intros b; destruct b; simpl;
    try (split; [discriminate|discriminate]); try tauto.
  - rewrite (list_eqb_eq _ _ H). split; congruence.
  - rewrite IHa. split; congruence.
  - rewrite strings_eqb_eq. split; congruence.
  - rewrite andb_true_iff, (list_eqb_eq _ _ H), (list_eqb_eq _ _ H0).
    split; [intros [-> ->]; reflexivity|intros [= -> ->]; auto].
  - rewrite !andb_true_iff, String.eqb_eq, !strings_eqb_eq, IHa.
    split; [intros [[[-> ->] ->] ->]; reflexivity|intros [= -> -> -> ->]; auto].
Qed.

Lemma type_eqb_refl (a : GoType) : type_eqb a a = true.
Proof. apply type_eqb_eq. reflexivity. Qed.

(** What [reflect.New] allocates has the type asked for. *)
Lemma type_of_zero (t : GoType) : type_of (zero t) = t.
Proof.
  induction t using GoType_nested_ind; simpl; try reflexivity.
  - f_equal. rewrite map_map. induction H as [|x l Hx _ IH]; simpl; congruence.
  - congruence.
Qed.

(** A pointer type has an element type. *)
Lemma Elem_of_pointer (t : GoType) : kind t = KPtr -> exists e, Elem t = Ok e.
Proof.
  unfold Elem. induction t; simpl; try discriminate; eauto.
Qed.

Lemma body_type_total (t : GoType) : exists e, body_type t = Ok e.
Proof.
  unfold body_type. case_bool_decide; [apply Elem_of_pointer; assumption|eauto].
Qed.

(** A value is of an interface type exactly when, under its names, it is an
    interface value. *)
Lemma kind_interface (v : Value) :
  kind (type_of v) = KInterface <-> exists ms dyn, bare v = VInterface ms dyn.
Proof.
  induction v; simpl;
    try (split; [discriminate|intros (ms' & dyn' & H); discriminate]).
  - split; eauto.
  - exact IHv.
Qed.

Lemma kind_pointer (v : Value) :
  kind (type_of v) = KPtr <->
  (exists elem target, bare v = VPtr elem target) \/ (exists c, bare v = VContext c).
Proof.
  induction v; simpl;
    try (split; [discriminate|intros [(e' & t' & H)|(c' & H)]; discriminate]).
  - split; eauto.
  - exact IHv.
  - split; eauto.
Qed.

(** [Interface()] gives what the value holds, and nil for a nil value of
    an interface type. Every value is of one of the two sorts. *)
Lemma Interface_holds (res v : Value) : holds res v -> Interface res = Some v.
Proof.
  unfold Interface. intros [[Hk ->]|[ms Hb]]; [|rewrite Hb; reflexivity].
  destruct (bare res) eqn:Hb; try reflexivity.
  exfalso. apply Hk, kind_interface. eauto.
Qed.

Lemma Interface_nil (res : Value) : nil_interface res -> Interface res = None.
Proof. unfold Interface. intros [ms ->]. reflexivity. Qed.

Lemma holds_or_nil (res : Value) : nil_interface res \/ exists v, holds res v.
Proof.
  destruct (decide (kind (type_of res) = KInterface)) as [Hk|Hk].
  - apply kind_interface in Hk as (ms & [v|] & Hb).
    + right. exists v. right. eauto.
    + left. exists ms. exact Hb.
  - right. exists res. left. auto.
Qed.

(** The type assertion [.(error)] on what a value holds. *)
Lemma as_error_holds (res v : Value) :
  holds res v ->
  as_error (Interface res) =
  if Implements (type_of v) errorType then Some (ErrorValue v) else None.
Proof. intros H. rewrite (Interface_holds res v H). reflexivity. Qed.

Lemma as_error_nil (res : Value) : nil_interface res -> as_error (Interface res) = None.
Proof. intros H. rewrite (Interface_nil res H). reflexivity. Qed.

Section Adapter.
Context {C : Collaborators}.
Variable g : Globals.

(** C7: [LambdaWrap] returns a function of the handler shape as it is,
    whether its type is the plain function type or [http.HandlerFunc]; for
    any input that is no function value, nil included, it panics. *)
Theorem LambdaWrap_passes_handlers_rejects_others (f : any) :
  (forall v, f = Some v ->
     type_of v = handlerFuncType \/ type_of v = HandlerFuncType ->
     LambdaWrap f = Ok (Direct (code_of v))) /\
  (is_function f = false -> exists msg, LambdaWrap f = Panic msg).
Proof.
  split.
  - intros v -> [Hty|Hty]; unfold LambdaWrap; rewrite Hty; reflexivity.
  - destruct f as [v|]; simpl; [|eauto].
    intros Hk. apply bool_decide_eq_false in Hk.
    destruct (type_eqb (type_of v) handlerFuncType) eqn:E1.
    { apply type_eqb_eq in E1. rewrite E1 in Hk. contradiction Hk. reflexivity. }
    destruct (type_eqb (type_of v) HandlerFuncType) eqn:E2.
    { apply type_eqb_eq in E2. rewrite E2 in Hk. contradiction Hk. reflexivity. }
    rewrite bool_decide_eq_false_2 by exact Hk. eauto.
Qed.

(** Running the computations. *)
Ltac run :=
  unfold mbind, M_bind, bind, mret, M_ret, ret, lift, panic, get_store,
    put_store, emit, SendResp in *; simpl in *.

Lemma status_error (l : option LambdaCtx) :
  lambdaHandleRes0 l = NewError None <$> recorded_status l.
Proof.
  unfold lambdaHandleRes0, recorded_status.
  destruct l as [l|]; [destruct (0 <? Status l)|]; reflexivity.
Qed.

Lemma lambdaHandleRes1_cases (l : option LambdaCtx) (res : Value) :
  lambdaHandleRes1 l res =
  match as_error (Interface res) with
  | Some e => (None, Some e)
  | None => (Interface res, NewError None <$> recorded_status l)
  end.
Proof.
  unfold lambdaHandleRes1, recorded_status.
  destruct (as_error (Interface res)); [reflexivity|].
  destruct l as [l|]; [destruct (0 <? Status l)|]; reflexivity.
Qed.

Lemma lambdaGetStatus_cases (l : option LambdaCtx) (res : Value) :
  lambdaGetStatus l res =
  match as_error (Interface res) with
  | Some e => Some e
  | None => NewError None <$> recorded_status l
  end.
Proof.
  unfold lambdaGetStatus, recorded_status.
  destruct (as_error (Interface res)); [reflexivity|].
  destruct l as [l|]; [destruct (0 <? Status l)|]; reflexivity.
Qed.

(** C5: with no value returned, the response carries the status recorded
    for the request, when one greater than zero was recorded, and else no
    error; no data either way. With one value returned: a value that is an
    error, returned as it is or inside a value of an interface type such as
    [error], is sent as the error, without data and whatever status was
    recorded; a value that is no error is sent as the data, with the
    recorded status, if any, as the error; a nil value of an interface type
    gives no data and the recorded status. *)
Theorem lambdaHandleRes_zero_or_one (r : Request) (w : World) :
  lambdaHandleRes r [] w =
    (Ok tt, responded (NewError None <$> recorded_status (L r (store w))) None w) /\
  (forall res v : Value,
     holds res v -> Implements (type_of v) errorType = true ->
     lambdaHandleRes r [res] w = (Ok tt, responded (Some (ErrorValue v)) None w)) /\
  (forall res v : Value,
     holds res v -> Implements (type_of v) errorType = false ->
     lambdaHandleRes r [res] w =
       (Ok tt, responded (NewError None <$> recorded_status (L r (store w)))
                 (Some v) w)) /\
  (forall res : Value,
     nil_interface res ->
     lambdaHandleRes r [res] w =
       (Ok tt, responded (NewError None <$> recorded_status (L r (store w))) None w)).
Proof.
  unfold lambdaHandleRes, responded. repeat split.
  - run. rewrite status_error. reflexivity.
  - intros res v Hv He. run.
    rewrite lambdaHandleRes1_cases, (as_error_holds res v Hv), He. reflexivity.
  - intros res v Hv He. run.
    rewrite lambdaHandleRes1_cases, (as_error_holds res v Hv), He.
    rewrite (Interface_holds res v Hv). reflexivity.
  - intros res Hnil. run.
    rewrite lambdaHandleRes1_cases, (as_error_nil res Hnil), (Interface_nil res Hnil).
    reflexivity.
Qed.

Lemma pointee_allocated (v : Value) (s : Store) :
  Kind_of v = KPtr -> allocated v s = true ->
  exists target, pointee v s = Ok target /\
    (forall elem, bare v = VPtr elem None -> target = None) /\
    (forall elem a x, bare v = VPtr elem (Some a) -> heap s !! a = Some x ->
       target = Some x).
Proof.
  unfold Kind_of, allocated, pointee, load.
  induction v; simpl; try discriminate; auto.
  - intros _ Hal. destruct target as [a|].
    + apply bool_decide_eq_true in Hal as [x Hx]. rewrite Hx. simpl.
      eexists. split; [reflexivity|]. split; [discriminate|].
      intros elem' a' x' [= <- <-]. congruence.
    + eexists. split; [reflexivity|]. split; [reflexivity|discriminate].
  - intros _ _. eexists. split; [reflexivity|]. split; discriminate.
Qed.

(** C4: with two values returned, the second is the error slot: an error
    there, returned as it is or inside a value of an interface type such as
    [error], is the error of the response, whatever status was recorded; the
    status recorded for the request is used only when the slot holds a nil
    interface value or a value that is no error. The first is the payload: a
    pointer is dereferenced once, a nil pointer gives no data, any other
    value is the data as it is. *)
Theorem lambdaHandleRes_two (r : Request) (w : World) (res0 res1 : Value) :
  allocated res0 (store w) = true ->
  exists (data : any) (err : option GoError),
    lambdaHandleRes r [res0; res1] w = (Ok tt, responded err data w) /\
    (forall e, holds res1 e -> Implements (type_of e) errorType = true ->
       err = Some (ErrorValue e)) /\
    (forall v, holds res1 v -> Implements (type_of v) errorType = false ->
       err = NewError None <$> recorded_status (L r (store w))) /\
    (nil_interface res1 -> err = NewError None <$> recorded_status (L r (store w))) /\
    (forall v, Kind_of res0 <> KPtr -> holds res0 v -> data = Some v) /\
    (nil_interface res0 -> data = None) /\
    (forall elem, bare res0 = VPtr elem None -> data = None) /\
    (forall elem a x v, bare res0 = VPtr elem (Some a) ->
       heap (store w) !! a = Some x -> holds x v -> data = Some v) /\
    (forall elem a x, bare res0 = VPtr elem (Some a) ->
       heap (store w) !! a = Some x -> nil_interface x -> data = None).
Proof.
  intros Hal. unfold lambdaHandleRes, lambdaHandleRes2, responded. run.
  rewrite lambdaGetStatus_cases.
  set (status := NewError None <$> recorded_status (L r (store w))).
  set (err := match as_error (Interface res1) with
              | Some e => Some e
              | None => status
              end).
  assert (Herr : (forall e, holds res1 e -> Implements (type_of e) errorType = true ->
                    err = Some (ErrorValue e)) /\
                 (forall v, holds res1 v -> Implements (type_of v) errorType = false ->
                    err = status) /\
                 (nil_interface res1 -> err = status)).
  { subst err. repeat split.
    - intros e He Himpl. rewrite (as_error_holds res1 e He), Himpl. reflexivity.
    - intros v Hv Himpl. rewrite (as_error_holds res1 v Hv), Himpl. reflexivity.
    - intros Hnil. rewrite (as_error_nil res1 Hnil). reflexivity. }
  destruct Herr as (He1 & He2 & He3).
  assert (Hptr : forall elem target, bare res0 = VPtr elem target -> Kind_of res0 = KPtr).
  { intros elem target Hb. apply kind_pointer. eauto. }
  assert (Hintf : nil_interface res0 -> Kind_of res0 <> KPtr).
  { intros [ms Hb] Hk.
    assert (Hi : Kind_of res0 = KInterface) by (apply kind_interface; eauto).
    congruence. }
  case_bool_decide as Hk.
  - destruct (pointee_allocated res0 (store w) Hk Hal) as (target & -> & Hnil & Hsome).
    simpl. destruct target as [x|]; simpl.
    + exists (Interface x), err. split; [reflexivity|].
      split; [exact He1|]. split; [exact He2|]. split; [exact He3|].
      split; [intros v Hne; contradiction|].
      split; [intros Hn; destruct (Hintf Hn Hk)|].
      split; [intros elem Hb; specialize (Hnil elem Hb); discriminate|].
      split.
      * intros elem a x' v Hb Hx Hv. specialize (Hsome elem a x' Hb Hx).
        injection Hsome as <-. apply Interface_holds. exact Hv.
      * intros elem a x' Hb Hx Hn. specialize (Hsome elem a x' Hb Hx).
        injection Hsome as <-. apply Interface_nil. exact Hn.
    + exists None, err. split; [reflexivity|].
      split; [exact He1|]. split; [exact He2|]. split; [exact He3|].
      split; [intros v Hne; contradiction|].
      split; [reflexivity|]. split; [reflexivity|].
      split.
      * intros elem a x' v Hb Hx _. specialize (Hsome elem a x' Hb Hx). discriminate.
      * intros elem a x' Hb Hx _. specialize (Hsome elem a x' Hb Hx). discriminate.
  - exists (Interface res0), err. split; [reflexivity|].
    split; [exact He1|]. split; [exact He2|]. split; [exact He3|].
    split; [intros v _ Hv; apply Interface_holds; exact Hv|].
    split; [intros Hn; apply Interface_nil; exact Hn|].
    split; [intros elem Hb; destruct (Hk (Hptr _ _ Hb))|].
    split.
    + intros elem a x' v Hb _ _. destruct (Hk (Hptr _ _ Hb)).
    + intros elem a x' Hb _ _. destruct (Hk (Hptr _ _ Hb)).
Qed.

(** Binding the context parameter never fails; it touches neither the heap
    nor the record of events, and fills in no slot but the first. *)
Lemma bind_context_run (ins : list GoType) (r : Request)
    (ps : list (option Value)) (w : World) :
  exists ps' s',
    bind_context ins r ps w =
      (Ok (ps', decoded_request ins r (store w)), {| store := s'; events := events w |}) /\
    heap s' = heap (store w) /\ length ps' = length ps.
Proof.
  unfold bind_context, decoded_request, NewRequestCtx.
  destruct ins as [|in0 ins]; [|destruct (Implements in0 contextType)]; run.
  - exists ps, (store w). destruct w; auto.
  - eexists _, _. split; [reflexivity|]. simpl. rewrite length_insert. auto.
  - exists ps, (store w). destruct w; auto.
Qed.

(** [lambdaGetParams] for a function with a body parameter. *)
Lemma lambdaGetParams_body (f : Value) (r : Request) (w : World)
    (ins outs : list GoType) (reqDataType elemType : GoType) :
  signature (type_of f) = Some (ins, outs) ->
  ins !! reqDataIdx ins = Some reqDataType ->
  body_type reqDataType = Ok elemType ->
  exists ps' ls,
    length ps' = length ins /\
    let a := fresh (dom (heap (store w))) in
    let r1 := decoded_request ins r (store w) in
    let world h := {| store := {| heap := h; lambdas := ls |}; events := events w |} in
    lambdaGetParams g r f w =
    match GetRequestData r1 (LambdaMaxBytesToParse g) (zero elemType) with
    | inl e =>
        (Ok (mkParams [] r1 (Some e)), world (<[a := zero elemType]> (heap (store w))))
    | inr v =>
        let h3 := <[a := v]> (<[a := zero elemType]> (heap (store w))) in
        match
          (if LambdaValidator g && bool_decide (kind elemType = KStruct)
           then validate_Struct v else None)
        with
        | Some e =>
            (Ok (mkParams [] r1 (Some (NewError (Some e) StatusUnprocessableEntity))),
             world h3)
        | None =>
            (Ok (mkParams
                   (<[reqDataIdx ins :=
                        Some (if bool_decide (kind reqDataType = KPtr)
                              then VPtr elemType (Some a) else v)]> ps')
                   r1 None),
             world h3)
        end
    end.
Proof.
  intros Hsig Hidx Hbody.
  destruct (bind_context_run ins r (replicate (length ins) None) w)
    as (ps' & s' & Hbind & Hheap & Hlen).
  exists ps', (lambdas s'). split; [rewrite Hlen; apply length_replicate|].
  unfold lambdaGetParams, reflect_New, write. rewrite Hsig. run.
  rewrite Hbind, Hidx, Hbody. simpl. rewrite Hheap.
  destruct (GetRequestData _ _ _) as [e|v]; simpl; [reflexivity|].
  destruct (if LambdaValidator g && bool_decide (kind elemType = KStruct)
            then validate_Struct v else None); reflexivity.
Qed.

(** C2: for a function with a body parameter, when the decoder fails, the
    adapter sends the decoder's error and nothing else happens: the
    function is not called. When the decoder succeeds, validation is on, the
    decoded value is a struct and the validator rejects it, the adapter
    sends that error under status 422, and the function is not called. *)
Theorem failed_body_is_answered_without_call (f : Value) (r : Request) (w : World)
    (ins outs : list GoType) (reqDataType elemType : GoType) :
  signature (type_of f) = Some (ins, outs) ->
  ins !! reqDataIdx ins = Some reqDataType ->
  body_type reqDataType = Ok elemType ->
  let decoded :=
    GetRequestData (decoded_request ins r (store w)) (LambdaMaxBytesToParse g)
      (zero elemType) in
  (forall e, decoded = inl e ->
     exists s', adapter g f r w =
       (Ok tt, {| store := s'; events := events w ++ [Sent (Some e) None] |})) /\
  (forall v e, decoded = inr v ->
     LambdaValidator g = true -> kind elemType = KStruct ->
     validate_Struct v = Some e ->
     exists s', adapter g f r w =
       (Ok tt, {| store := s';
                  events := events w ++ [Sent (Some (NewError (Some e) 422)) None] |})).
Proof.
  intros Hsig Hidx Hbody decoded.
  destruct (lambdaGetParams_body f r w ins outs reqDataType elemType Hsig Hidx Hbody)
    as (ps' & ls & _ & Hrun).
  cbv zeta in Hrun. fold decoded in Hrun. unfold adapter. split.
  - intros e He. rewrite He in Hrun. run. rewrite Hrun. simpl. eauto.
  - intros v e Hv Hval Hk He. rewrite Hv, Hval in Hrun.
    rewrite bool_decide_eq_true_2 in Hrun by exact Hk. simpl in Hrun.
    rewrite He in Hrun. run. rewrite Hrun. simpl. eauto.
Qed.

Lemma arguments_lookup (ps : list (option Value)) (args : list Value) (i : nat)
    (v : Value) :
  arguments ps = Some args -> ps !! i = Some (Some v) -> args !! i = Some v.
Proof.
  revert args i. induction ps as [|[x|] ps IH]; intros args i; simpl; try discriminate.
  destruct (arguments ps) as [vs|]; [|discriminate].
  intros [= <-]. destruct i as [|i]; simpl.
  - intros [= ->]. reflexivity.
  - apply IH. reflexivity.
Qed.

(** [lambdaHandleRes] records no call. *)
Lemma lambdaHandleRes_events (r : Request) (res : list Value) (w : World) :
  exists tail,
    events (snd (lambdaHandleRes r res w)) = (events w ++ tail)%list /\
    forall code args s, ~ In (Called code args s) tail.
Proof.
  unfold lambdaHandleRes. run.
  destruct res as [|res0 [|res1 rest]]; simpl.
  - eexists. split; [reflexivity|]. intros code args s [H|[]]. discriminate.
  - destruct (lambdaHandleRes1 _ _). eexists. split; [reflexivity|].
    intros code args s [H|[]]. discriminate.
  - destruct (lambdaHandleRes2 _ _ _) as [[data err]|msg]; simpl.
    + eexists. split; [reflexivity|]. intros code args s [H|[]]. discriminate.
    + exists []. rewrite app_nil_r. split; [reflexivity|]. intros code args s [].
Qed.

(** [Call] panics before the function runs, leaving the world as it is, or
    records the call and runs the function on the arguments given, all of
    them set and assignable to the parameters. *)
Lemma Call_cases (f : Value) (ps : list (option Value)) (w : World) :
  (exists msg, Call f ps w = (Panic msg, w)) \/
  (exists code args ins outs,
     signature (type_of f) = Some (ins, outs) /\ code_of f = Some code /\
     length ps = length ins /\
     arguments ps = Some args /\ not_assignable args ins = None /\
     Call f ps w =
     (fst (call code args (store w)),
      {| store := snd (call code args (store w));
         events := events w ++ [Called code args (store w)] |})).
Proof.
  unfold Call.
  destruct (signature (type_of f)) as [[ins outs]|]; [|left; run; eauto].
  destruct (code_of f) as [code|]; [|left; run; eauto].
  destruct (length ps <? length ins)%nat eqn:Hfew; [left; run; eauto|].
  destruct (length ins <? length ps)%nat eqn:Hmany; [left; run; eauto|].
  apply Nat.ltb_ge in Hfew, Hmany.
  destruct (arguments ps) as [args|]; [|left; run; eauto].
  destruct (not_assignable args ins) as [[xt targ]|] eqn:Hfit; [left; run; eauto|].
  right. exists code, args, ins, outs. run. repeat split; auto. lia.
Qed.

(** C10: for a function whose body parameter is a pointer, every call that
    the adapter makes passes, as the body argument, a pointer that is not
    nil: it points to an address that was not in use before the request
    and that holds a value in the store the function starts from. *)
Theorem pointer_body_argument_is_not_nil (f : Value) (r : Request) (s : Store)
    (ins outs : list GoType) (reqDataType : GoType)
    (code : nat) (args : list Value) (s1 : Store) :
  signature (type_of f) = Some (ins, outs) ->
  ins !! reqDataIdx ins = Some reqDataType ->
  kind reqDataType = KPtr ->
  In (Called code args s1) (events (snd (adapter g f r {| store := s; events := [] |}))) ->
  exists (elemType : GoType) (a : nat) (v : Value),
    Elem reqDataType = Ok elemType /\
    args !! reqDataIdx ins = Some (VPtr elemType (Some a)) /\
    (a ∉ dom (heap s)) /\
    heap s1 !! a = Some v /\
    GetRequestData (decoded_request ins r s) (LambdaMaxBytesToParse g)
      (zero elemType) = inr v.
Proof.
  intros Hsig Hidx Hk.
  destruct (Elem_of_pointer reqDataType Hk) as [elemType HElem].
  assert (Hbody : body_type reqDataType = Ok elemType).
  { unfold body_type. rewrite bool_decide_eq_true_2 by exact Hk. exact HElem. }
  destruct (lambdaGetParams_body f r {| store := s; events := [] |} ins outs
              reqDataType elemType Hsig Hidx Hbody) as (ps' & ls & Hlen & Hrun).
  cbv zeta in Hrun. simpl in Hrun.
  rewrite (bool_decide_eq_true_2 _ Hk) in Hrun.
  set (a := fresh (dom (heap s))) in *.
  unfold adapter. run. rewrite Hrun. clear Hrun.
  destruct (GetRequestData _ _ _) as [e|v] eqn:Hdec; simpl.
  { intros [H|[]]. discriminate. }
  destruct (if LambdaValidator g && bool_decide (kind elemType = KStruct)
            then validate_Struct v else None); simpl.
  { intros [H|[]]. discriminate. }
  match goal with
  | |- context [Call f ?ps ?w1] =>
      destruct (Call_cases f ps w1)
        as [[msg ->]|(code' & args' & ins' & outs' & _ & _ & _ & Hargs & _ & ->)]
  end; simpl; [intros []|].
  set (w2 := {| store := (call code' args' _).2; events := _ |}).
  destruct (call code' args' _).1 as [res|msg] eqn:Hcall; simpl.
  - destruct (lambdaHandleRes_events (decoded_request ins r s) res w2)
      as (tail & -> & Hno). subst w2. simpl.
    intros [H|H]; [|exfalso; exact (Hno _ _ _ H)].
    injection H as <- <- <-.
    exists elemType, a, v. split; [exact HElem|]. split; [|split].
    + apply (arguments_lookup _ _ _ _ Hargs).
      apply list_lookup_insert_eq. rewrite Hlen. apply lookup_lt_Some in Hidx. exact Hidx.
    + apply is_fresh.
    + simpl. split; [apply lookup_insert_eq|exact Hdec].
  - subst w2. simpl. intros [H|[]]. injection H as <- <- <-.
    exists elemType, a, v. split; [exact HElem|]. split; [|split].
    + apply (arguments_lookup _ _ _ _ Hargs).
      apply list_lookup_insert_eq. rewrite Hlen. apply lookup_lt_Some in Hidx. exact Hidx.
    + apply is_fresh.
    + simpl. split; [apply lookup_insert_eq|exact Hdec].
Qed.

End Adapter.

Example LambdaWrap_handler :
  LambdaWrap (Some Examples.handler) = Ok (Direct (Some 9%nat)) /\
  LambdaWrap (Some Examples.named_handler) = Ok (Direct (Some 9%nat)).
Proof. split; reflexivity. Qed.

Example LambdaWrap_function : LambdaWrap (Some Examples.create) = Ok (Adapted Examples.create).
Proof. reflexivity. Qed.

Example LambdaWrap_number : LambdaWrap (Some (VInt 3)) = Panic "function expected".
Proof. reflexivity. Qed.

Example LambdaWrap_nil : LambdaWrap None = Panic nil_dereference.
Proof. reflexivity. Qed.

(** A request with the body "pen": the function is called once, on the
    context and a pointer to the decoded item, and the item it returns
    through the pointer is sent as the data. *)
Example adapter_create :
  events (snd (adapter (C := Examples.collaborators) defaults Examples.create
                 (Examples.plain_request "pen") Examples.empty_world)) =
  [Called 7 [VContext 0; VPtr Examples.ItemType (Some 0%nat)] Examples.store_at_call;
   Sent None (Some (Examples.item "pen" 1))].
Proof. vm_compute. reflexivity. Qed.

(** A function without results that records the status 202 through its
    context: the status is what is sent. *)
Example adapter_accept :
  events (snd (adapter (C := Examples.collaborators) defaults Examples.accept
                 (Examples.plain_request "") Examples.empty_world)) =
  [Called 8 [VContext 0]
     {| heap := ∅; lambdas := <[0%nat := {| Status := 0 |}]> ∅ |};
   Sent (Some (NewError None 202)) None].
Proof. vm_compute. reflexivity. Qed.

(** An empty body, which the decoder refuses; and the body "bad", which it
    decodes and the validator refuses. The function is not called. *)
Lemma failed_body_witness :
  (exists s', adapter (C := Examples.collaborators) defaults Examples.create
     (Examples.plain_request "") Examples.empty_world =
     (Ok tt, {| store := s'; events := [Sent (Some (RestError None 400)) None] |})) /\
  (exists s', adapter (C := Examples.collaborators) defaults Examples.create
     (Examples.plain_request "bad") Examples.empty_world =
     (Ok tt, {| store := s';
                events := [Sent (Some (NewError (Some Examples.invalid_name) 422)) None] |})).
Proof.
  split.
  - apply (proj1 (failed_body_is_answered_without_call (C := Examples.collaborators)
             defaults Examples.create (Examples.plain_request "") Examples.empty_world
             [contextType; TPtr Examples.ItemType] [TPtr Examples.ItemType; errorType]
             (TPtr Examples.ItemType) Examples.ItemType eq_refl eq_refl eq_refl)).
    reflexivity.
  - apply (proj2 (failed_body_is_answered_without_call (C := Examples.collaborators)
             defaults Examples.create (Examples.plain_request "bad") Examples.empty_world
             [contextType; TPtr Examples.ItemType] [TPtr Examples.ItemType; errorType]
             (TPtr Examples.ItemType) Examples.ItemType eq_refl eq_refl eq_refl)
             (Examples.item "bad" 1)); reflexivity.
Defined.

(** A pointer to an item and no error: the item is the data. The same
    pointer with the error [NotFound] in the error slot, for a request with
    the status 202 recorded: the error is sent, not the status. A nil
    pointer and no error, for that request: the status is sent, no data. *)
Lemma lambdaHandleRes_two_witness :
  (exists (data : any) (err : option GoError),
     lambdaHandleRes (Examples.plain_request "pen")
       [VPtr Examples.ItemType (Some 0%nat); zero errorType]
       {| store := Examples.store_at_call; events := [] |} =
     (Ok tt, responded err data {| store := Examples.store_at_call; events := [] |}) /\
     err = None /\ data = Some (Examples.item "pen" 1)) /\
  (exists (data : any) (err : option GoError),
     lambdaHandleRes MoreExamples.request_with_lambda
       [VPtr Examples.ItemType (Some 0%nat);
        MoreExamples.error_of MoreExamples.not_found]
       {| store := MoreExamples.store_item_accepted; events := [] |} =
     (Ok tt, responded err data
               {| store := MoreExamples.store_item_accepted; events := [] |}) /\
     err = Some (ErrorValue MoreExamples.not_found) /\
     data = Some (Examples.item "pen" 1)) /\
  (exists (data : any) (err : option GoError),
     lambdaHandleRes MoreExamples.request_with_lambda
       [VPtr Examples.ItemType None; zero errorType]
       {| store := MoreExamples.store_item_accepted; events := [] |} =
     (Ok tt, responded err data
               {| store := MoreExamples.store_item_accepted; events := [] |}) /\
     err = Some (NewError None 202) /\ data = None).
Proof.
  split; [|split].
  - destruct (lambdaHandleRes_two (Examples.plain_request "pen")
                {| store := Examples.store_at_call; events := [] |}
                (VPtr Examples.ItemType (Some 0%nat)) (zero errorType) eq_refl)
      as (data & err & Hrun & _ & _ & Herr & _ & _ & _ & Hdata & _).
    exists data, err. split; [exact Hrun|]. split.
    + apply Herr. exists ["Error"]. reflexivity.
    + apply (Hdata Examples.ItemType 0%nat (Examples.item "pen" 1)); [reflexivity..|].
      left. split; [discriminate|reflexivity].
  - destruct (lambdaHandleRes_two MoreExamples.request_with_lambda
                {| store := MoreExamples.store_item_accepted; events := [] |}
                (VPtr Examples.ItemType (Some 0%nat))
                (MoreExamples.error_of MoreExamples.not_found) eq_refl)
      as (data & err & Hrun & Herr & _ & _ & _ & _ & _ & Hdata & _).
    exists data, err. split; [exact Hrun|]. split.
    + apply Herr; [|reflexivity]. right. exists ["Error"]. reflexivity.
    + apply (Hdata Examples.ItemType 0%nat (Examples.item "pen" 1)); [reflexivity..|].
      left. split; [discriminate|reflexivity].
  - destruct (lambdaHandleRes_two MoreExamples.request_with_lambda
                {| store := MoreExamples.store_item_accepted; events := [] |}
                (VPtr Examples.ItemType None) (zero errorType) eq_refl)
      as (data & err & Hrun & _ & _ & Herr & _ & _ & Hdata & _).
    exists data, err. split; [exact Hrun|]. split.
    + apply Herr. exists ["Error"]. reflexivity.
    + apply (Hdata Examples.ItemType). reflexivity.
Defined.

(** For a request with the status 202 recorded: no value returned, the
    status is sent; the error [NotFound] returned as an [error], the error
    is sent and not the status; an item returned, the item is sent with the
    status; a nil [error] returned, the status is sent, no data. *)
Lemma lambdaHandleRes_zero_or_one_witness :
  lambdaHandleRes MoreExamples.request_with_lambda []
    {| store := MoreExamples.store_item_accepted; events := [] |} =
    (Ok tt, responded (Some (NewError None 202)) None
              {| store := MoreExamples.store_item_accepted; events := [] |}) /\
  lambdaHandleRes MoreExamples.request_with_lambda
    [MoreExamples.error_of MoreExamples.not_found]
    {| store := MoreExamples.store_item_accepted; events := [] |} =
    (Ok tt, responded (Some (ErrorValue MoreExamples.not_found)) None
              {| store := MoreExamples.store_item_accepted; events := [] |}) /\
  lambdaHandleRes MoreExamples.request_with_lambda [Examples.item "pen" 1]
    {| store := MoreExamples.store_item_accepted; events := [] |} =
    (Ok tt, responded (Some (NewError None 202)) (Some (Examples.item "pen" 1))
              {| store := MoreExamples.store_item_accepted; events := [] |}) /\
  lambdaHandleRes MoreExamples.request_with_lambda [zero errorType]
    {| store := MoreExamples.store_item_accepted; events := [] |} =
    (Ok tt, responded (Some (NewError None 202)) None
              {| store := MoreExamples.store_item_accepted; events := [] |}).
Proof.
  destruct (lambdaHandleRes_zero_or_one MoreExamples.request_with_lambda
              {| store := MoreExamples.store_item_accepted; events := [] |})
    as (Hzero & Herror & Hdata & Hnil).
  split; [exact Hzero|]. split; [|split].
  - apply Herror; [|reflexivity]. right. exists ["Error"]. reflexivity.
  - apply (Hdata (Examples.item "pen" 1) (Examples.item "pen" 1)); [|reflexivity].
    left. split; [discriminate|reflexivity].
  - apply Hnil. exists ["Error"]. reflexivity.
Defined.

(** The body "pen": the function is called with a pointer to address 0,
    which holds the decoded item. *)
Lemma pointer_body_argument_witness :
  exists (elemType : GoType) (a : nat) (v : Value),
    Elem (TPtr Examples.ItemType) = Ok elemType /\
    [VContext 0%nat; VPtr Examples.ItemType (Some 0%nat)] !! 1%nat =
      Some (VPtr elemType (Some a)) /\
    (a ∉ dom (heap Examples.empty_store)) /\
    heap Examples.store_at_call !! a = Some v /\
    Examples.decode
      (decoded_request [contextType; TPtr Examples.ItemType]
         (Examples.plain_request "pen") Examples.empty_store)
      (LambdaMaxBytesToParse defaults) (zero elemType) = inr v.
Proof.
  apply (pointer_body_argument_is_not_nil (C := Examples.collaborators) defaults
           Examples.create (Examples.plain_request "pen") Examples.empty_store
           [contextType; TPtr Examples.ItemType] [TPtr Examples.ItemType; errorType]
           (TPtr Examples.ItemType) 7%nat
           [VContext 0%nat; VPtr Examples.ItemType (Some 0%nat)]
           Examples.store_at_call eq_refl eq_refl eq_refl).
  vm_compute. left. reflexivity.
Defined.

End LambdaFacts.

(** * Further properties *)

(** ** The resolver, over any implementation of the packages *)

Module ResolverFacts.

Section Resolver.
Context {P : Tracer.Packages}.

(** X1: a tracer that [NewFromRequest] or [NewFromRequestWithContext]
    returns has [received] set and holds trace data behind a pointer that
    is not nil, of the SDK's type when the SDK is enabled and of the B3 or
    the W3C type when it is not. *)
Theorem resolved_tracer_holds_data (OtelEnabled : bool) (parentCtx : Tracer.Context)
    (r : Request) (t : Tracer.Tracer) :
  Tracer.NewFromRequest OtelEnabled r = Ok (Some t) \/
  Tracer.NewFromRequestWithContext OtelEnabled parentCtx r = Ok (Some t) ->
  Tracer.received t = true /\
  (OtelEnabled = true ->
   exists d, Tracer.traceData t = Tracer.OfTraceOTel (Some d)) /\
  (OtelEnabled = false ->
   (exists d, Tracer.traceData t = Tracer.OfTraceB3 (Some d)) \/
   (exists d, Tracer.traceData t = Tracer.OfTraceParent (Some d))).
Proof.
  unfold Tracer.NewFromRequest, Tracer.NewFromRequestWithContext.
  destruct OtelEnabled; simpl.
  - intros [H|H].
    + destruct (Tracer.traceotel_NewFromRequest r) as [d|]; simpl in H;
        [|discriminate]. injection H as <-. simpl.
      split; [reflexivity|]. split; [eauto|discriminate].
    + destruct (Tracer.traceotel_NewFromRequestWithContext parentCtx r) as [d|];
        simpl in H; [|discriminate]. injection H as <-. simpl.
      split; [reflexivity|]. split; [eauto|discriminate].
  - assert (Hboth : forall o : Res (option Tracer.Tracer),
              o = Ok (Some t) \/ o = Ok (Some t) -> o = Ok (Some t)) by tauto.
    intros H. apply Hboth in H. clear Hboth.
    destruct (Tracer.traceb3_NewFromRequest r) as [d|]; simpl in H.
    + injection H as <-. simpl. split; [reflexivity|]. split; [discriminate|eauto].
    + destruct (Tracer.traceparent_NewFromRequest r) as [d|]; simpl in H;
        [|discriminate].
      injection H as <-. simpl. split; [reflexivity|]. split; [discriminate|eauto].
Qed.

(** X2: neither resolver panics, under either setting; and
    [NewFromRequest] returns nil exactly when the parsers consulted under
    the setting find nothing. *)
Theorem resolver_never_panics (OtelEnabled : bool) (parentCtx : Tracer.Context)
    (r : Request) :
  (exists o, Tracer.NewFromRequest OtelEnabled r = Ok o) /\
  (exists o, Tracer.NewFromRequestWithContext OtelEnabled parentCtx r = Ok o) /\
  (Tracer.NewFromRequest OtelEnabled r = Ok None <->
   Tracer.recognized OtelEnabled r = false).
Proof.
  unfold Tracer.NewFromRequest, Tracer.NewFromRequestWithContext, Tracer.recognized.
  destruct OtelEnabled; simpl.
  - destruct (Tracer.traceotel_NewFromRequest r) as [d|];
      destruct (Tracer.traceotel_NewFromRequestWithContext parentCtx r) as [d'|];
      simpl; (split; [eauto|]); (split; [eauto|]); split; congruence.
  - destruct (Tracer.traceb3_NewFromRequest r) as [d|]; simpl.
    + split; [eauto|]. split; [eauto|]. split; congruence.
    + destruct (Tracer.traceparent_NewFromRequest r) as [d|]; simpl;
        (split; [eauto|]); (split; [eauto|]); split; congruence.
Qed.

(** X3: the [received] field of the tracer that [NewFromRequestOrRandom]
    returns tells where it came from: set when the request carried a trace
    that the resolver recognizes, and then the tracer is the one
    [NewFromRequest] returns and no random number is drawn; clear
    otherwise, and then the tracer is the one [NewRandom] makes. *)
Theorem NewFromRequestOrRandom_origin (OtelEnabled : bool) (r : Request) (tape : Tape) :
  exists (t : Tracer.Tracer) (tape' : Tape),
    Tracer.NewFromRequestOrRandom OtelEnabled r tape = Ok (Some t, tape') /\
    Tracer.received t = Tracer.recognized OtelEnabled r /\
    (Tracer.recognized OtelEnabled r = true ->
     Tracer.NewFromRequest OtelEnabled r = Ok (Some t) /\ tape' = tape) /\
    (Tracer.recognized OtelEnabled r = false ->
     (t, tape') = Tracer.NewRandom OtelEnabled tape).
Proof.
  unfold Tracer.NewFromRequestOrRandom, Tracer.NewFromRequest, Tracer.recognized,
    Tracer.NewRandom.
  destruct OtelEnabled; simpl.
  - destruct (Tracer.traceotel_NewFromRequest r) as [d|]; simpl.
    + eexists _, _. split; [reflexivity|]. simpl. split; [reflexivity|].
      split; [auto|discriminate].
    + destruct (Tracer.traceotel_NewRandom tape) as [d tape'].
      eexists _, _. split; [reflexivity|]. simpl. split; [reflexivity|].
      split; [discriminate|auto].
  - destruct (Tracer.traceb3_NewFromRequest r) as [d|]; simpl.
    + eexists _, _. split; [reflexivity|]. simpl. split; [reflexivity|].
      split; [auto|discriminate].
    + destruct (Tracer.traceparent_NewFromRequest r) as [d|]; simpl.
      * eexists _, _. split; [reflexivity|]. simpl. split; [reflexivity|].
        split; [auto|discriminate].
      * destruct (Tracer.traceb3_NewRandom tape) as [d tape'].
        eexists _, _. split; [reflexivity|]. simpl. split; [reflexivity|].
        split; [discriminate|auto].
Qed.

End Resolver.

(** A request with a W3C header, the SDK disabled: the tracer resolved holds
    the W3C context. *)
Lemma resolved_tracer_witness :
  let t := @Tracer.mkTracer spec_packages
             (@Tracer.OfTraceParent spec_packages
                (Some (traceparent.mk "00" "4bf92f3577b34da6a3ce929d0e0e4736"
                         "00f067aa0ba902b7" "01" true))) true in
  Tracer.received t = true /\
  ((exists d, Tracer.traceData t = Tracer.OfTraceB3 (Some d)) \/
   (exists d, Tracer.traceData t = Tracer.OfTraceParent (Some d))).
Proof.
  pose proof (resolved_tracer_holds_data (P := spec_packages) false None
           (mkRequest
              (Header_Set "Traceparent"
                 "00-4bf92f3577b34da6a3ce929d0e0e4736-00f067aa0ba902b7-01" ∅)
              "" None) _ (or_introl eq_refl)) as (Hrcv & _ & Hdata).
  split; [exact Hrcv|exact (Hdata eq_refl)].
Defined.

End ResolverFacts.

(** ** Switching the SDK on and off *)

Module OTelSetupFacts.
Import OTelSetup.

Section Setup.
Context {S : SDK}.

(** X4: [GetOTel] after [SetOTel] is the flag given. Disabling changes
    nothing else: the providers and the propagator installed stay, and the
    provider passed is ignored. Enabling installs one provider in both
    [traceotel] and [otel], the one passed or, for nil, a new one, and the
    composite of the W3C propagator and the two B3 propagators. *)
Theorem SetOTel_effect (enabled : bool) (tp : option TracerProvider) (st : Globals) :
  GetOTel (SetOTel enabled tp st) = enabled /\
  (enabled = false ->
   traceotel_TraceProvider (SetOTel enabled tp st) = traceotel_TraceProvider st /\
   otel_TracerProvider (SetOTel enabled tp st) = otel_TracerProvider st /\
   otel_TextMapPropagator (SetOTel enabled tp st) = otel_TextMapPropagator st) /\
  (enabled = true ->
   exists p : TracerProvider,
     traceotel_TraceProvider (SetOTel enabled tp st) = Some p /\
     otel_TracerProvider (SetOTel enabled tp st) = Some p /\
     (forall q, tp = Some q -> p = q) /\
     (tp = None -> p = NewTracerProvider) /\
     otel_TextMapPropagator (SetOTel enabled tp st) =
       [TraceContext; b3_New []; b3_New [WithInjectEncoding_B3MultipleHeader]]).
Proof.
  unfold GetOTel, SetOTel. destruct enabled; simpl.
  - split; [reflexivity|]. split; [discriminate|]. intros _.
    destruct tp as [q|]; eexists; repeat split; try reflexivity;
      try discriminate; congruence.
  - split; [reflexivity|]. split; [auto|discriminate].
Qed.

(** X5: [SetOTelGrpc] changes the globals only when it succeeds. When the
    resource or the exporter cannot be made, it returns that error, the
    resource's first, and leaves [OtelEnabled], the providers and the
    propagator as they were. When both are made, it returns nil, enables
    the SDK and installs a provider with the parent-based ratio sampler of
    the fraction given, the resource and a batch processor of the
    exporter. *)
Theorem SetOTelGrpc_all_or_nothing (target : string) (fraction : Fraction)
    (st : Globals) :
  (forall e, fst (SetOTelGrpc target fraction st) = Some e ->
     snd (SetOTelGrpc target fraction st) = st /\
     (resource_New (filepath_Base os_Args0) = inl e \/
      (exists res, resource_New (filepath_Base os_Args0) = inr res) /\
      otlptracegrpc_New target = inl e)) /\
  (fst (SetOTelGrpc target fraction st) = None ->
   exists res exporter,
     resource_New (filepath_Base os_Args0) = inr res /\
     otlptracegrpc_New target = inr exporter /\
     GetOTel (snd (SetOTelGrpc target fraction st)) = true /\
     otel_TracerProvider (snd (SetOTelGrpc target fraction st)) =
       Some {| WithSampler := Some (ParentBased_TraceIDRatioBased fraction);
               WithResource := Some res;
               WithSpanProcessor := Some (NewBatchSpanProcessor exporter) |} /\
     traceotel_TraceProvider (snd (SetOTelGrpc target fraction st)) =
       otel_TracerProvider (snd (SetOTelGrpc target fraction st))).
Proof.
  unfold SetOTelGrpc.
  destruct (resource_New (filepath_Base os_Args0)) as [e1|res]; simpl.
  - split; [|discriminate]. intros e [= <-]. auto.
  - destruct (otlptracegrpc_New target) as [e2|exporter]; simpl.
    + split; [|discriminate]. intros e [= <-]. split; [reflexivity|].
      right. eauto.
    + split; [discriminate|]. intros _. exists res, exporter. auto 10.
Qed.

End Setup.
End OTelSetupFacts.

(** ** The adapter, path by path *)

Module AdapterFacts.
Import Lambda AdapterNotions.

Ltac run_M :=
  unfold mbind, M_bind, bind, mret, M_ret, ret, lift, panic, get_store,
    put_store, emit, SendResp in *; simpl in *.

Section Adapter.
Context {C : Collaborators}.
Variable g : Globals.

Lemma bind_context_exact (ins : list GoType) (r : Request)
    (ps : list (option Value)) (w : World) :
  bind_context ins r ps w =
  (Ok (context_params ins ps (store w), decoded_request ins r (store w)),
   {| store := context_store ins (store w); events := events w |}).
Proof.
  unfold bind_context, context_params, decoded_request, context_store, NewRequestCtx.
  destruct ins as [|in0 ins]; [|destruct (Implements in0 contextType)]; run_M;
    destruct w; reflexivity.
Qed.

(** [lambdaGetParams] for a function without a body parameter. *)
Lemma lambdaGetParams_no_body (f : Value) (r : Request) (w : World)
    (ins outs : list GoType) :
  signature (type_of f) = Some (ins, outs) ->
  ins !! reqDataIdx ins = None ->
  lambdaGetParams g r f w =
  (Ok (mkParams (context_params ins (replicate (length ins) None) (store w))
         (decoded_request ins r (store w)) None),
   {| store := context_store ins (store w); events := events w |}).
Proof.
  intros Hsig Hidx. unfold lambdaGetParams. rewrite Hsig. run_M.
  rewrite bind_context_exact, Hidx. reflexivity.
Qed.

(** [lambdaGetParams] for a function with a body parameter whose body is
    decoded and, where the validator is consulted, accepted. *)
Lemma lambdaGetParams_decoded (f : Value) (r : Request) (w : World)
    (ins outs : list GoType) (reqDataType elemType : GoType) (v : Value) :
  signature (type_of f) = Some (ins, outs) ->
  ins !! reqDataIdx ins = Some reqDataType ->
  body_type reqDataType = Ok elemType ->
  GetRequestData (decoded_request ins r (store w)) (LambdaMaxBytesToParse g)
    (zero elemType) = inr v ->
  validation g elemType v = None ->
  lambdaGetParams g r f w =
  (Ok (mkParams
         (<[reqDataIdx ins :=
              Some (if bool_decide (kind reqDataType = KPtr)
                    then VPtr elemType (Some (fresh (dom (heap (store w))))) else v)]>
            (context_params ins (replicate (length ins) None) (store w)))
         (decoded_request ins r (store w)) None),
   {| store := body_store ins elemType v (store w); events := events w |}).
Proof.
  intros Hsig Hidx Hbody Hdec Hval. unfold lambdaGetParams, reflect_New, write.
  rewrite Hsig. run_M. rewrite bind_context_exact, Hidx, Hbody. simpl.
  assert (Hheap : heap (context_store ins (store w)) = heap (store w)).
  { unfold context_store. destruct ins as [|in0 ?]; [reflexivity|].
    destruct (Implements in0 contextType); reflexivity. }
  rewrite Hheap, Hdec. simpl. unfold validation in Hval. rewrite Hval.
  reflexivity.
Qed.

Lemma Call_run (f : Value) (ps : list (option Value)) (args : list Value)
    (code : nat) (ins outs : list GoType) (w : World) :
  signature (type_of f) = Some (ins, outs) -> code_of f = Some code ->
  length ps = length ins ->
  arguments ps = Some args -> not_assignable args ins = None ->
  Call f ps w =
  (fst (call code args (store w)),
   {| store := snd (call code args (store w));
      events := events w ++ [Called code args (store w)] |}).
Proof.
  intros Hsig Hcode Hlen Hargs Hfit. unfold Call.
  rewrite Hsig, Hcode, Hlen, Nat.ltb_irrefl, Hargs, Hfit. run_M. reflexivity.
Qed.

(** The first parameter takes the new context, the parameter after it the
    body. *)
Lemma takes_context_assignable (in0 : GoType) (rest : list GoType) :
  takes_context (in0 :: rest) = true -> Implements in0 contextType = true ->
  AssignableTo requestCtxType in0 = true.
Proof. unfold takes_context. intros H Himpl. rewrite Himpl in H. exact H. Qed.

Lemma body_assignable (reqDataType elemType : GoType) (a : option nat) (v : Value) :
  body_type reqDataType = Ok elemType -> type_of v = elemType ->
  AssignableTo
    (type_of (if bool_decide (kind reqDataType = KPtr) then VPtr elemType a else v))
    reqDataType = true.
Proof.
  unfold body_type, Elem, AssignableTo. intros Hbody Hty.
  case_bool_decide as Hk; simpl.
  - destruct (underlying reqDataType) eqn:Hu; try discriminate.
    injection Hbody as ->. rewrite LambdaFacts.type_eqb_refl.
    rewrite orb_true_r. reflexivity.
  - injection Hbody as ->. rewrite Hty, LambdaFacts.type_eqb_refl. reflexivity.
Qed.

(** [lambdaHandleRes] sends one response or panics without sending. *)
Lemma lambdaHandleRes_outcome (r : Request) (res : list Value) (w : World) :
  (exists err data, lambdaHandleRes r res w = (Ok tt, responded err data w)) \/
  (exists msg, lambdaHandleRes r res w = (Panic msg, w)).
Proof.
  unfold lambdaHandleRes, responded. run_M.
  destruct res as [|res0 [|res1 rest]]; simpl; eauto.
  - destruct (lambdaHandleRes1 _ _). eauto.
  - destruct (lambdaHandleRes2 _ _ _) as [[data err]|msg]; simpl; eauto.
Qed.

Lemma Call_outcome (f : Value) (ps : list (option Value)) (w : World) :
  (exists msg, Call f ps w = (Panic msg, w)) \/
  (exists code args,
     Call f ps w =
     (fst (call code args (store w)),
      {| store := snd (call code args (store w));
         events := events w ++ [Called code args (store w)] |})).
Proof.
  destruct (LambdaFacts.Call_cases f ps w)
    as [Hpanic|(code & args & ins & outs & _ & _ & _ & _ & _ & Hrun)]; eauto.
Qed.

Lemma context_params_length (ins : list GoType) (ps : list (option Value))
    (s : Store) :
  length (context_params ins ps s) = length ps.
Proof.
  unfold context_params. destruct ins as [|in0 ?]; [reflexivity|].
  destruct (Implements in0 contextType); [apply length_insert|reflexivity].
Qed.

(** With no error, the arguments that [lambdaGetParams] returns for a
    function with a context parameter start with the new context. *)
Lemma lambdaGetParams_context (f : Value) (r : Request) (w w1 : World)
    (in0 : GoType) (rest outs : list GoType) (p : Params) :
  signature (type_of f) = Some (in0 :: rest, outs) ->
  Implements in0 contextType = true ->
  lambdaGetParams g r f w = (Ok p, w1) ->
  err p = None ->
  params p !! 0%nat = Some (Some (VContext (fresh (dom (lambdas (store w)))))) /\
  length (params p) = S (length rest) /\
  events w1 = events w.
Proof.
  intros Hsig Himpl. unfold lambdaGetParams, reflect_New, write. rewrite Hsig.
  unfold bind_context, NewRequestCtx, reqDataIdx. rewrite Himpl. run_M.
  destruct rest as [|reqDataType rest]; simpl.
  { intros [= <- <-] _. auto. }
  destruct (body_type reqDataType) as [elemType|msg]; simpl; [|discriminate].
  destruct (GetRequestData _ _ _) as [e|v]; simpl.
  { intros [= <- <-]. discriminate. }
  destruct (if LambdaValidator g && bool_decide (kind elemType = KStruct)
            then validate_Struct v else None); simpl.
  { intros [= <- <-]. discriminate. }
  intros [= <- <-] _. simpl. rewrite length_replicate. auto.
Qed.

(** [lambdaGetParams] records no event. *)
Lemma lambdaGetParams_silent (f : Value) (r : Request) (w : World) :
  events (snd (lambdaGetParams g r f w)) = events w.
Proof.
  unfold lambdaGetParams, reflect_New, write.
  destruct (signature (type_of f)) as [[ins outs]|]; run_M; [|reflexivity].
  rewrite bind_context_exact.
  destruct (ins !! reqDataIdx ins) as [reqDataType|]; simpl; [|reflexivity].
  destruct (body_type reqDataType) as [elemType|msg]; simpl; [|reflexivity].
  destruct (GetRequestData _ _ _) as [e|v]; simpl; [reflexivity|].
  destruct (if LambdaValidator g && bool_decide (kind elemType = KStruct)
            then validate_Struct v else None); reflexivity.
Qed.

(** For a function value [lambdaGetParams] does not panic, and with no
    error it returns as many arguments as the function has parameters. *)
Lemma lambdaGetParams_returns (f : Value) (r : Request) (w : World)
    (ins outs : list GoType) :
  signature (type_of f) = Some (ins, outs) ->
  exists p, fst (lambdaGetParams g r f w) = Ok p /\
    (err p = None -> length (params p) = length ins).
Proof.
  intros Hsig. unfold lambdaGetParams, reflect_New, write. rewrite Hsig. run_M.
  rewrite bind_context_exact.
  destruct (ins !! reqDataIdx ins) as [reqDataType|]; simpl.
  2:{ eexists. split; [reflexivity|]. simpl. intros _.
      rewrite context_params_length. apply length_replicate. }
  destruct (LambdaFacts.body_type_total reqDataType) as [elemType ->]. simpl.
  destruct (GetRequestData _ _ _) as [e|v]; simpl.
  { eexists. split; [reflexivity|]. discriminate. }
  destruct (if LambdaValidator g && bool_decide (kind elemType = KStruct)
            then validate_Struct v else None); simpl.
  { eexists. split; [reflexivity|]. discriminate. }
  eexists. split; [reflexivity|]. simpl. intros _.
  rewrite length_insert, context_params_length. apply length_replicate.
Qed.

(** [Call] with the new context as the first argument, for a first
    parameter that cannot take it. *)
Lemma Call_unassignable_context (f : Value) (ps : list (option Value)) (w : World)
    (in0 : GoType) (rest outs : list GoType) (c : nat) :
  signature (type_of f) = Some (in0 :: rest, outs) ->
  AssignableTo requestCtxType in0 = false ->
  ps !! 0%nat = Some (Some (VContext c)) ->
  exists msg, Call f ps w = (Panic msg, w).
Proof.
  intros Hsig Hno Hps.
  destruct (LambdaFacts.Call_cases f ps w)
    as [Hpanic|(code & args & ins & outs' & Hsig' & _ & _ & Hargs & Hfit & _)];
    [exact Hpanic|].
  exfalso. rewrite Hsig in Hsig'. injection Hsig' as <- <-.
  pose proof (LambdaFacts.arguments_lookup ps args 0 (VContext c) Hargs Hps) as H0.
  destruct args as [|x args]; [discriminate|]. injection H0 as ->.
  cbn [not_assignable type_of] in Hfit. rewrite Hno in Hfit. discriminate.
Qed.

(** X6: [lambdaGetParams] records no event, and whatever it allocates, it
    leaves every heap cell and every [Lambda] that existed before as it
    was: the body is decoded at a new address and the context gets a new
    [Lambda]. *)
Theorem lambdaGetParams_frame (f : Value) (r : Request) (w : World) :
  events (snd (lambdaGetParams g r f w)) = events w /\
  (forall a v, heap (store w) !! a = Some v ->
     heap (store (snd (lambdaGetParams g r f w))) !! a = Some v) /\
  (forall a l, lambdas (store w) !! a = Some l ->
     lambdas (store (snd (lambdaGetParams g r f w))) !! a = Some l).
Proof.
  assert (Hfresh_heap : forall (h : gmap nat Value) a v x,
            h !! a = Some v -> <[fresh (dom h) := x]> h !! a = Some v).
  { intros h a v x Ha. rewrite lookup_insert_ne; [exact Ha|].
    intros <-. apply (is_fresh (dom h)). apply elem_of_dom. eauto. }
  assert (Hfresh_lam : forall (h : gmap nat LambdaCtx) a v x,
            h !! a = Some v -> <[fresh (dom h) := x]> h !! a = Some v).
  { intros h a v x Ha. rewrite lookup_insert_ne; [exact Ha|].
    intros <-. apply (is_fresh (dom h)). apply elem_of_dom. eauto. }
  assert (Hctx : (forall a v, heap (store w) !! a = Some v ->
                    forall ins, heap (context_store ins (store w)) !! a = Some v) /\
                 (forall a l, lambdas (store w) !! a = Some l ->
                    forall ins, lambdas (context_store ins (store w)) !! a = Some l)).
  { split; intros a v Ha ins; unfold context_store;
      destruct ins as [|in0 ?]; try exact Ha;
      destruct (Implements in0 contextType); simpl; auto. }
  destruct Hctx as [Hctx_heap Hctx_lam].
  assert (Hheap : forall ins, heap (context_store ins (store w)) = heap (store w)).
  { intros ins. unfold context_store. destruct ins as [|in0 ?]; [reflexivity|].
    destruct (Implements in0 contextType); reflexivity. }
  unfold lambdaGetParams, reflect_New, write.
  destruct (signature (type_of f)) as [[ins outs]|]; run_M; [|auto].
  rewrite bind_context_exact.
  destruct (ins !! reqDataIdx ins) as [reqDataType|]; simpl; [|auto].
  destruct (body_type reqDataType) as [elemType|msg]; simpl; [|auto].
  rewrite Hheap.
  destruct (GetRequestData _ _ _) as [e|v]; simpl.
  { split; [reflexivity|]. split; [|auto]. intros a x Ha. auto. }
  destruct (if LambdaValidator g && bool_decide (kind elemType = KStruct)
            then validate_Struct v else None); simpl;
    (split; [reflexivity|]; split; [|auto]; intros a x Ha;
     rewrite insert_insert_eq; auto).
Qed.

(** X7: a run of the adapter answers once or not at all. When it returns,
    it has sent exactly one response, as the last thing it did, after at
    most one call of the function. When it panics, it has sent no
    response. It never calls the function twice. *)
Theorem adapter_answers_once (f : Value) (r : Request) (s : Store) :
  (fst (adapter g f r {| store := s; events := [] |}) = Ok tt ->
   exists err data,
     events (snd (adapter g f r {| store := s; events := [] |})) = [Sent err data] \/
     exists code args s1,
       events (snd (adapter g f r {| store := s; events := [] |})) =
       [Called code args s1; Sent err data]) /\
  (forall msg, fst (adapter g f r {| store := s; events := [] |}) = Panic msg ->
     events (snd (adapter g f r {| store := s; events := [] |})) = [] \/
     exists code args s1,
       events (snd (adapter g f r {| store := s; events := [] |})) =
       [Called code args s1]).
Proof.
  pose proof (lambdaGetParams_silent f r {| store := s; events := [] |}) as Hev.
  unfold adapter. run_M.
  destruct (lambdaGetParams g r f {| store := s; events := [] |}) as [[p|msg] w1];
    simpl in *.
  2:{ split; [discriminate|]. intros _ _. auto. }
  destruct (err p) as [e|].
  { simpl. rewrite Hev. split; [eauto|discriminate]. }
  destruct (Call_outcome f (params p) w1) as [[msg ->]|(code & args & ->)].
  { simpl. split; [discriminate|]. intros _ _. auto. }
  rewrite Hev. simpl.
  destruct (call code args (store w1)) as [[res|msg] s2]; simpl.
  2:{ split; [discriminate|]. intros _ _. eauto. }
  destruct (lambdaHandleRes_outcome (request p) res
              {| store := s2; events := [Called code args (store w1)] |})
    as [(e & d & ->)|(msg & ->)]; simpl.
  - split; [eauto 10|discriminate].
  - split; [discriminate|]. intros _ _. eauto.
Qed.

Lemma arguments_zero_slot (ps : list (option Value)) (i : nat) :
  ps !! i = Some None -> arguments ps = None.
Proof.
  revert i. induction ps as [|[x|] ps IH]; intros i; simpl.
  - discriminate.
  - destruct i as [|i]; simpl; [discriminate|].
    intros H. rewrite (IH i H). reflexivity.
  - reflexivity.
Qed.

(** X8: for a function without a body parameter, one that takes nothing or
    only a context, of a type that can take the context [NewRequestCtx]
    returns, the adapter decodes nothing: whatever the request body and the
    decoder, it calls the function, on no argument or on the new context
    alone, and it allocates nothing in the heap. *)
Theorem no_body_parameter_no_decoding (f : Value) (r : Request) (s : Store)
    (ins outs : list GoType) (code : nat) :
  signature (type_of f) = Some (ins, outs) ->
  ins !! reqDataIdx ins = None ->
  code_of f = Some code ->
  takes_context ins = true ->
  exists tail,
    events (snd (adapter g f r {| store := s; events := [] |})) =
    Called code
      match ins with [] => [] | _ => [VContext (fresh (dom (lambdas s)))] end
      (context_store ins s) :: tail /\
    heap (context_store ins s) = heap s.
Proof.
  intros Hsig Hidx Hcode Htakes. unfold adapter. run_M.
  rewrite (lambdaGetParams_no_body f r _ ins outs Hsig Hidx). simpl.
  set (args := match ins with
               | [] => []
               | _ => [VContext (fresh (dom (lambdas s)))]
               end).
  assert (Hargs : arguments (context_params ins (replicate (length ins) None) s) =
                  Some args /\ not_assignable args ins = None /\
                  heap (context_store ins s) = heap s).
  { subst args. unfold context_params, context_store, reqDataIdx in *.
    destruct ins as [|in0 [|in1 ins]]; [auto| |];
      destruct (Implements in0 contextType) eqn:Himpl; simpl in Hidx;
      try discriminate.
    split; [reflexivity|]. split; [|reflexivity].
    cbn [not_assignable type_of].
    rewrite (takes_context_assignable in0 [] Htakes Himpl). reflexivity. }
  destruct Hargs as (Hargs & Hfit & Hheap).
  rewrite (Call_run f _ args code ins outs _ Hsig Hcode
             (eq_trans (context_params_length _ _ _) (length_replicate _ _))
             Hargs Hfit). simpl.
  destruct (call code args (context_store ins s)) as [[res|msg] s2]; simpl.
  - destruct (lambdaHandleRes_outcome (decoded_request ins r s) res
                {| store := s2; events := [Called code args (context_store ins s)] |})
      as [(e & d & ->)|(msg & ->)]; simpl; eauto.
  - eauto.
Qed.

(** X9: for a function of the shape (context?, body), whose context
    parameter, if any, can take the context [NewRequestCtx] returns, when
    the body is decoded, to a value of the type it is decoded into, and,
    where the validator is consulted, accepted, the adapter calls the
    function with every argument set. The body argument is the decoded
    value itself for a parameter passed by value, and a pointer to the new
    address that holds it for a pointer parameter. *)
Theorem decoded_body_reaches_function (f : Value) (r : Request) (s : Store)
    (ins outs : list GoType) (reqDataType elemType : GoType) (v : Value)
    (code : nat) :
  signature (type_of f) = Some (ins, outs) ->
  ins !! reqDataIdx ins = Some reqDataType ->
  length ins = S (reqDataIdx ins) ->
  takes_context ins = true ->
  body_type reqDataType = Ok elemType ->
  GetRequestData (decoded_request ins r s) (LambdaMaxBytesToParse g)
    (zero elemType) = inr v ->
  type_of v = elemType ->
  validation g elemType v = None ->
  code_of f = Some code ->
  exists args tail,
    events (snd (adapter g f r {| store := s; events := [] |})) =
    Called code args (body_store ins elemType v s) :: tail /\
    length args = length ins /\
    args !! reqDataIdx ins =
      Some (if bool_decide (kind reqDataType = KPtr)
            then VPtr elemType (Some (fresh (dom (heap s)))) else v) /\
    heap (body_store ins elemType v s) !! fresh (dom (heap s)) = Some v.
Proof.
  intros Hsig Hidx Hlen Htakes Hbody Hdec Hty Hval Hcode. unfold adapter. run_M.
  rewrite (lambdaGetParams_decoded f r {| store := s; events := [] |} ins outs
             reqDataType elemType v Hsig Hidx Hbody Hdec Hval). simpl.
  pose proof (body_assignable reqDataType elemType (Some (fresh (dom (heap s)))) v
                Hbody Hty) as Hfitx.
  set (x := if bool_decide (kind reqDataType = KPtr)
            then VPtr elemType (Some (fresh (dom (heap s)))) else v) in *.
  assert (Hargs : exists args,
            arguments (<[reqDataIdx ins := Some x]>
                         (context_params ins (replicate (length ins) None) s)) =
            Some args /\ length args = length ins /\
            args !! reqDataIdx ins = Some x /\ not_assignable args ins = None).
  { clearbody x. unfold context_params, reqDataIdx in *.
    destruct ins as [|in0 [|in1 [|in2 ins]]]; simpl in Hidx, Hlen; try discriminate;
      destruct (Implements in0 contextType) eqn:Himpl; simpl in Hidx, Hlen;
      try discriminate; try lia; injection Hidx as ->.
    - eexists. split; [reflexivity|]. split; [reflexivity|]. split; [reflexivity|].
      cbn [not_assignable]. rewrite Hfitx. reflexivity.
    - eexists. split; [reflexivity|]. split; [reflexivity|]. split; [reflexivity|].
      cbn [not_assignable type_of].
      rewrite (takes_context_assignable in0 _ Htakes Himpl), Hfitx. reflexivity. }
  destruct Hargs as (args & Hargs & Hlenargs & Hx & Hfit).
  rewrite (Call_run f _ args code ins outs _ Hsig Hcode
             (eq_trans (length_insert _ _ _)
                (eq_trans (context_params_length _ _ _) (length_replicate _ _)))
             Hargs Hfit). simpl.
  assert (Hcell : heap (body_store ins elemType v s) !! fresh (dom (heap s)) = Some v).
  { unfold body_store. simpl. apply lookup_insert_eq. }
  destruct (call code args (body_store ins elemType v s)) as [[res|msg] s2]; simpl.
  - destruct (lambdaHandleRes_outcome (decoded_request ins r s) res
                {| store := s2;
                   events := [Called code args (body_store ins elemType v s)] |})
      as [(e & d & ->)|(msg & ->)]; simpl; eauto 10.
  - eauto 10.
Qed.

(** X10: a function, not nil, that declares more parameters than a context
    and a body cannot be served: once the body is decoded and accepted, the
    adapter panics in [Call], on the argument left unset, without calling
    the function and without sending a response. *)
Theorem extra_parameters_panic (f : Value) (r : Request) (s : Store)
    (ins outs : list GoType) (reqDataType elemType : GoType) (v : Value)
    (code : nat) :
  signature (type_of f) = Some (ins, outs) ->
  code_of f = Some code ->
  ins !! reqDataIdx ins = Some reqDataType ->
  (S (reqDataIdx ins) < length ins)%nat ->
  body_type reqDataType = Ok elemType ->
  GetRequestData (decoded_request ins r s) (LambdaMaxBytesToParse g)
    (zero elemType) = inr v ->
  validation g elemType v = None ->
  adapter g f r {| store := s; events := [] |} =
  (Panic "reflect: Call using zero Value argument",
   {| store := body_store ins elemType v s; events := [] |}).
Proof.
  intros Hsig Hcode Hidx Hlen Hbody Hdec Hval. unfold adapter. run_M.
  rewrite (lambdaGetParams_decoded f r {| store := s; events := [] |} ins outs
             reqDataType elemType v Hsig Hidx Hbody Hdec Hval). simpl.
  unfold Call.
  rewrite Hsig, Hcode, length_insert, context_params_length, length_replicate,
    Nat.ltb_irrefl.
  rewrite (arguments_zero_slot _ (S (reqDataIdx ins))); [reflexivity|].
  rewrite list_lookup_insert_ne by lia.
  assert (Hctx : context_params ins (replicate (length ins) None) s
                   !! S (reqDataIdx ins) =
                 replicate (length ins) None !! S (reqDataIdx ins)).
  { unfold context_params. destruct ins as [|in0 ins']; [reflexivity|].
    destruct (Implements in0 contextType); [|reflexivity].
    apply list_lookup_insert_ne. lia. }
  rewrite Hctx. apply lookup_replicate_2. exact Hlen.
Qed.

(** X11: results beyond the second are dropped: a function that returns
    three values or more is answered as if it had returned the first two. *)
Theorem lambdaHandleRes_drops_further_results (r : Request) (w : World)
    (res0 res1 : Value) (rest : list Value) :
  lambdaHandleRes r (res0 :: res1 :: rest) w = lambdaHandleRes r [res0; res1] w.
Proof.
  unfold lambdaHandleRes, lambdaHandleRes2. destruct rest; reflexivity.
Qed.

(** X12: a nil pointer whose type implements [error], returned as the only
    value, is sent as an error: the type assertion holds for the pointer
    type, nil or not, and the recorded status is not looked at. A nil
    value of the interface type [error] is no error: it is answered with
    the recorded status, if any, and no data. *)
Theorem nil_pointer_of_error_type_is_an_error (r : Request) (w : World)
    (elem : GoType) :
  Implements (TPtr elem) errorType = true ->
  lambdaHandleRes r [VPtr elem None] w =
    (Ok tt, responded (Some (ErrorValue (VPtr elem None))) None w) /\
  lambdaHandleRes r [zero errorType] w =
    (Ok tt, responded (NewError None <$> recorded_status (L r (store w))) None w).
Proof.
  intros Himpl. unfold lambdaHandleRes, responded, lambdaHandleRes1. run_M.
  unfold as_error. simpl. rewrite Himpl. split; [reflexivity|].
  unfold recorded_status. destruct (L r (store w)) as [l|]; [|reflexivity].
  destruct (0 <? Status l); reflexivity.
Qed.

(** X13: a function that takes only a context, of a type that can take
    the context [NewRequestCtx] returns, and returns nothing is answered by
    the status it leaves on the [Lambda] of that context: the one made for
    this request, with no status at the call, whatever [Lambda] the request
    carried before. *)
Theorem status_recorded_through_context (f : Value) (r : Request) (s s2 : Store)
    (in0 : GoType) (outs : list GoType) (code : nat) :
  signature (type_of f) = Some ([in0], outs) ->
  Implements in0 contextType = true ->
  AssignableTo requestCtxType in0 = true ->
  code_of f = Some code ->
  call code [VContext (fresh (dom (lambdas s)))] (context_store [in0] s) = (Ok [], s2) ->
  lambdas (context_store [in0] s) !! fresh (dom (lambdas s)) = Some {| Status := 0 |} /\
  adapter g f r {| store := s; events := [] |} =
  (Ok tt,
   {| store := s2;
      events :=
        [Called code [VContext (fresh (dom (lambdas s)))] (context_store [in0] s);
         Sent (NewError None <$> recorded_status (lambdas s2 !! fresh (dom (lambdas s))))
           None] |}).
Proof.
  intros Hsig Himpl Hfit0 Hcode Hcall. split.
  { unfold context_store. rewrite Himpl. simpl. apply lookup_insert_eq. }
  assert (Hidx : [in0] !! reqDataIdx [in0] = None).
  { unfold reqDataIdx. rewrite Himpl. reflexivity. }
  unfold adapter. run_M.
  rewrite (lambdaGetParams_no_body f r _ [in0] outs Hsig Hidx). simpl.
  assert (Hargs : arguments (context_params [in0] [None] s) =
                  Some [VContext (fresh (dom (lambdas s)))]).
  { unfold context_params. rewrite Himpl. reflexivity. }
  assert (Hfit : not_assignable [VContext (fresh (dom (lambdas s)))] [in0] = None).
  { cbn [not_assignable type_of]. rewrite Hfit0. reflexivity. }
  rewrite (Call_run f _ _ code [in0] outs _ Hsig Hcode
             (context_params_length [in0] [None] s) Hargs Hfit).
  simpl. rewrite Hcall. simpl.
  unfold lambdaHandleRes, L, decoded_request. run_M. rewrite Himpl. simpl.
  unfold lambdaHandleRes0, recorded_status.
  destruct (lambdas s2 !! fresh (dom (lambdas s))) as [l|]; [|reflexivity].
  destruct (0 <? Status l); reflexivity.
Qed.

(** X14: [LambdaWrap] does not panic on a function value; and a function
    value of any type but the two handler types is wrapped, also one of a
    named function type with the handler's own signature. *)
Theorem LambdaWrap_wraps_other_functions (v : Value) :
  kind (type_of v) = KFunc ->
  (exists h, LambdaWrap (Some v) = Ok h) /\
  (type_of v <> handlerFuncType -> type_of v <> HandlerFuncType ->
   LambdaWrap (Some v) = Ok (Adapted v)).
Proof.
  intros Hk. unfold LambdaWrap.
  destruct (type_eqb (type_of v) handlerFuncType) eqn:E1.
  { apply LambdaFacts.type_eqb_eq in E1. split; [eauto|]. intros H. contradiction. }
  destruct (type_eqb (type_of v) HandlerFuncType) eqn:E2.
  { apply LambdaFacts.type_eqb_eq in E2. split; [eauto|]. intros _ H. contradiction. }
  rewrite bool_decide_eq_true_2 by exact Hk. eauto.
Qed.

(** X16: a function whose first parameter implements [context.Context] but
    cannot take the context that [NewRequestCtx] returns, such as the
    context type of a web framework, is never called: [lambdaGetParams]
    binds the new context all the same, and [Call] panics on that argument.
    When the context is the only parameter, every request ends in that
    panic, with no response. *)
Theorem unassignable_context_is_never_called (f : Value) (r : Request) (s : Store)
    (in0 : GoType) (rest outs : list GoType) :
  signature (type_of f) = Some (in0 :: rest, outs) ->
  Implements in0 contextType = true ->
  AssignableTo requestCtxType in0 = false ->
  (forall code args s1,
     ~ In (Called code args s1)
          (events (snd (adapter g f r {| store := s; events := [] |})))) /\
  (forall code, rest = [] -> code_of f = Some code ->
     adapter g f r {| store := s; events := [] |} =
     (Panic ("reflect: Call using " ++ type_string requestCtxType ++ " as type "
             ++ type_string in0),
      {| store := context_store [in0] s; events := [] |})).
Proof.
  intros Hsig Himpl Hno. split.
  - intros code args s1. unfold adapter. run_M.
    pose proof (lambdaGetParams_silent f r {| store := s; events := [] |}) as Hev.
    destruct (lambdaGetParams g r f {| store := s; events := [] |})
      as [[p|msg] w1] eqn:Hp; simpl in *.
    2:{ rewrite Hev. intros []. }
    destruct (err p) as [e|] eqn:He.
    { simpl. rewrite Hev. intros [H|[]]. discriminate. }
    destruct (lambdaGetParams_context f r _ w1 in0 rest outs p Hsig Himpl Hp He)
      as (Hctx & _ & _).
    destruct (Call_unassignable_context f (params p) w1 in0 rest outs _ Hsig Hno Hctx)
      as [msg ->].
    simpl. rewrite Hev. intros [].
  - intros code -> Hcode.
    assert (Hidx : [in0] !! reqDataIdx [in0] = None).
    { unfold reqDataIdx. rewrite Himpl. reflexivity. }
    unfold adapter. run_M.
    rewrite (lambdaGetParams_no_body f r _ [in0] outs Hsig Hidx). simpl.
    unfold Call, context_params. rewrite Hsig, Hcode, Himpl.
    cbn [length replicate Nat.ltb Nat.leb list_insert arguments not_assignable type_of].
    rewrite Hno. reflexivity.
Qed.

(** X17: a nil value of a function type passes [lambdaGetParams] like any
    function and fails at each request: the body, if the function declares
    one, is decoded first, and a body that is refused is answered; else the
    adapter panics in [Call], on the nil function, without a response. The
    function is never called. *)
Theorem nil_function_panics_at_request (f : Value) (r : Request) (s : Store)
    (ins outs : list GoType) :
  signature (type_of f) = Some (ins, outs) ->
  code_of f = None ->
  exists p w1,
    lambdaGetParams g r f {| store := s; events := [] |} = (Ok p, w1) /\
    events w1 = [] /\
    adapter g f r {| store := s; events := [] |} =
    match err p with
    | Some e => (Ok tt, responded (Some e) None w1)
    | None => (Panic call_of_nil, w1)
    end.
Proof.
  intros Hsig Hcode. unfold adapter, responded. run_M.
  pose proof (lambdaGetParams_silent f r {| store := s; events := [] |}) as Hev.
  destruct (lambdaGetParams_returns f r {| store := s; events := [] |} ins outs Hsig)
    as (p & Hp & _).
  destruct (lambdaGetParams g r f {| store := s; events := [] |}) as [res w1].
  simpl in Hp, Hev. subst res.
  exists p, w1. split; [reflexivity|]. split; [exact Hev|].
  destruct (err p) as [e|]; simpl; [reflexivity|].
  unfold Call. rewrite Hsig, Hcode. reflexivity.
Qed.

End Adapter.

(** X15: with [LambdaValidator] off, [validate.Struct] has no say: the
    adapter runs the same under any two validators. *)
Theorem validator_off_is_not_consulted (g : Globals)
    (decode : Request -> Z -> Value -> GoError + Value)
    (validate1 validate2 : Value -> option GoError)
    (behaviour : nat -> list Value -> Store -> Res (list Value) * Store)
    (f : Value) (r : Request) (w : World) :
  LambdaValidator g = false ->
  adapter (C := Build_Collaborators decode validate1 behaviour) g f r w =
  adapter (C := Build_Collaborators decode validate2 behaviour) g f r w.
Proof.
  intros Hoff.
  assert (Hparams :
    lambdaGetParams (C := Build_Collaborators decode validate1 behaviour) g r f w =
    lambdaGetParams (C := Build_Collaborators decode validate2 behaviour) g r f w).
  { unfold lambdaGetParams. rewrite Hoff. reflexivity. }
  unfold adapter. run_M. rewrite Hparams. reflexivity.
Qed.

(** [Examples.accept] takes a context only. *)
Lemma no_body_parameter_witness :
  exists tail,
    events (snd (adapter (C := Examples.collaborators) defaults Examples.accept
                   (Examples.plain_request "not json") Examples.empty_world)) =
    Called 8 [VContext (fresh (dom (lambdas Examples.empty_store)))]
      (context_store [contextType] Examples.empty_store) :: tail /\
    heap (context_store [contextType] Examples.empty_store) =
    heap Examples.empty_store.
Proof.
  apply (no_body_parameter_no_decoding (C := Examples.collaborators) defaults
           Examples.accept (Examples.plain_request "not json") Examples.empty_store
           [contextType] [] 8%nat eq_refl eq_refl eq_refl eq_refl).
Defined.

(** [Examples.create] on the body "pen". *)
Lemma decoded_body_witness :
  exists args tail,
    events (snd (adapter (C := Examples.collaborators) defaults Examples.create
                   (Examples.plain_request "pen") Examples.empty_world)) =
    Called 7 args
      (body_store [contextType; TPtr Examples.ItemType] Examples.ItemType
         (Examples.item "pen" 1) Examples.empty_store) :: tail /\
    length args = 2%nat /\
    args !! 1%nat =
      Some (VPtr Examples.ItemType (Some (fresh (dom (heap Examples.empty_store))))) /\
    heap (body_store [contextType; TPtr Examples.ItemType] Examples.ItemType
            (Examples.item "pen" 1) Examples.empty_store)
      !! fresh (dom (heap Examples.empty_store)) = Some (Examples.item "pen" 1).
Proof.
  apply (decoded_body_reaches_function (C := Examples.collaborators) defaults
           Examples.create (Examples.plain_request "pen") Examples.empty_store
           [contextType; TPtr Examples.ItemType] [TPtr Examples.ItemType; errorType]
           (TPtr Examples.ItemType) Examples.ItemType (Examples.item "pen" 1) 7%nat
           eq_refl eq_refl eq_refl eq_refl eq_refl eq_refl eq_refl eq_refl eq_refl).
Defined.

(** [MoreExamples.update] on the body "pen": the third argument is never
    set. *)
Lemma extra_parameters_witness :
  adapter (C := Examples.collaborators) defaults MoreExamples.update
    (Examples.plain_request "pen") Examples.empty_world =
  (Panic "reflect: Call using zero Value argument",
   {| store := body_store [contextType; TPtr Examples.ItemType; TInt]
                 Examples.ItemType (Examples.item "pen" 1) Examples.empty_store;
      events := [] |}).
Proof.
  apply (extra_parameters_panic (C := Examples.collaborators) defaults
           MoreExamples.update (Examples.plain_request "pen") Examples.empty_store
           [contextType; TPtr Examples.ItemType; TInt] [errorType]
           (TPtr Examples.ItemType) Examples.ItemType (Examples.item "pen" 1)
           7%nat eq_refl eq_refl eq_refl).
  - simpl. lia.
  - reflexivity.
  - reflexivity.
  - reflexivity.
Defined.

(** A nil pointer to [MyErr], and a nil [error]. *)
Lemma nil_pointer_error_witness :
  lambdaHandleRes (Examples.plain_request "") [VPtr MoreExamples.MyErrType None]
    Examples.empty_world =
    (Ok tt,
     responded (Some (ErrorValue (VPtr MoreExamples.MyErrType None))) None
       Examples.empty_world) /\
  lambdaHandleRes (Examples.plain_request "") [zero errorType] Examples.empty_world =
    (Ok tt,
     responded
       (NewError None <$>
        recorded_status (L (Examples.plain_request "") (store Examples.empty_world)))
       None Examples.empty_world).
Proof.
  apply (nil_pointer_of_error_type_is_an_error (Examples.plain_request "")
           Examples.empty_world MoreExamples.MyErrType eq_refl).
Defined.

(** [Examples.accept] records 202 through its context. *)
Lemma status_through_context_witness :
  lambdas (context_store [contextType] Examples.empty_store)
    !! fresh (dom (lambdas Examples.empty_store)) = Some {| Status := 0 |} /\
  adapter (C := Examples.collaborators) defaults Examples.accept
    (Examples.plain_request "") Examples.empty_world =
  (Ok tt,
   {| store := MoreExamples.store_accepted;
      events :=
        [Called 8 [VContext (fresh (dom (lambdas Examples.empty_store)))]
           (context_store [contextType] Examples.empty_store);
         Sent (NewError None <$>
               recorded_status
                 (lambdas MoreExamples.store_accepted
                    !! fresh (dom (lambdas Examples.empty_store))))
           None] |}).
Proof.
  apply (status_recorded_through_context (C := Examples.collaborators) defaults
           Examples.accept (Examples.plain_request "") Examples.empty_store
           MoreExamples.store_accepted contextType [] 8%nat eq_refl eq_refl eq_refl
           eq_refl).
  vm_compute. reflexivity.
Defined.

(** A function that takes a [*gin.Context]: the panic, and no call. *)
Lemma unassignable_context_witness :
  (forall code args s1,
     ~ In (Called code args s1)
          (events (snd (adapter (C := Examples.collaborators) defaults
                          MoreExamples.gin_handler (Examples.plain_request "")
                          Examples.empty_world)))) /\
  adapter (C := Examples.collaborators) defaults MoreExamples.gin_handler
    (Examples.plain_request "") Examples.empty_world =
  (Panic "reflect: Call using *context.valueCtx as type *gin.Context",
   {| store := context_store [MoreExamples.GinContextType] Examples.empty_store;
      events := [] |}).
Proof.
  pose proof (unassignable_context_is_never_called (C := Examples.collaborators)
                defaults MoreExamples.gin_handler (Examples.plain_request "")
                Examples.empty_store MoreExamples.GinContextType [] []
                eq_refl eq_refl eq_refl) as [Hnever Hpanic].
  split; [exact Hnever|]. exact (Hpanic 8%nat eq_refl eq_refl).
Defined.

(** A nil function that takes a context and a pointer to an item, on the
    body "pen". *)
Lemma nil_function_witness :
  exists p w1,
    lambdaGetParams (C := Examples.collaborators) defaults
      (Examples.plain_request "pen") MoreExamples.nil_create Examples.empty_world =
      (Ok p, w1) /\
    events w1 = [] /\
    adapter (C := Examples.collaborators) defaults MoreExamples.nil_create
      (Examples.plain_request "pen") Examples.empty_world =
    match err p with
    | Some e => (Ok tt, responded (Some e) None w1)
    | None => (Panic call_of_nil, w1)
    end.
Proof.
  apply (nil_function_panics_at_request (C := Examples.collaborators) defaults
           MoreExamples.nil_create (Examples.plain_request "pen") Examples.empty_store
           [contextType; TPtr Examples.ItemType] [TPtr Examples.ItemType; errorType]
           eq_refl eq_refl).
Defined.

(** A handler under the program's own function type is wrapped. *)
Lemma LambdaWrap_wraps_witness :
  (exists h, LambdaWrap (Some MoreExamples.my_handler) = Ok h) /\
  LambdaWrap (Some MoreExamples.my_handler) = Ok (Adapted MoreExamples.my_handler).
Proof.
  pose proof (LambdaWrap_wraps_other_functions MoreExamples.my_handler eq_refl)
    as [Hok Hwrap].
  split; [exact Hok|]. apply Hwrap; discriminate.
Defined.

(** The body "bad" with validation off: the validator that refuses it and
    one that accepts everything give the same run. *)
Lemma validator_off_witness :
  adapter (C := Build_Collaborators Examples.decode Examples.validate Examples.behaviour)
    MoreExamples.no_validation Examples.create (Examples.plain_request "bad")
    Examples.empty_world =
  adapter (C := Build_Collaborators Examples.decode (fun _ => None) Examples.behaviour)
    MoreExamples.no_validation Examples.create (Examples.plain_request "bad")
    Examples.empty_world.
Proof.
  apply (validator_off_is_not_consulted MoreExamples.no_validation Examples.decode
           Examples.validate (fun _ => None) Examples.behaviour Examples.create
           (Examples.plain_request "bad") Examples.empty_world eq_refl).
Defined.

End AdapterFacts.
